(** * HSS boot-image initialisation (init/hss_boot_init.c)

    A shallow embedding of the boot-image acquisition and validation
    pipeline of the Hart Software Services: the header checks
    [verifyMagic_] and [validateCrc_], the four source readers, and the
    orchestrator [HSS_BootInit].

    Memory is byte addressed; multi-byte fields are little endian (the
    target is RISC-V).  Code that touches memory, calls a collaborator or
    prints runs in a small monad that threads the world and collects the
    observable events of the call in program order. *)

From Stdlib Require Import ZArith List Bool Lia String Ascii.
From coqutil Require Import Byte Word.LittleEndianList.
Import ListNotations.
Local Open Scope string_scope.
Local Open Scope list_scope.
Local Open Scope Z_scope.

(** ** Fixed-width integers *)

Definition u32 (z : Z) : Z := z mod 2 ^ 32.
Definition u64 (z : Z) : Z := z mod 2 ^ 64.

(** [NULL] pointer. Addresses are plain integers. *)
Definition NULL : Z := 0.

(** ** Byte-addressed memory *)

Definition memory := Z -> byte.

Definition load_bytes (m : memory) (addr : Z) (n : nat) : list byte :=
  map (fun i => m (addr + Z.of_nat i)) (seq 0 n).

Definition store_bytes (m : memory) (addr : Z) (bs : list byte) : memory :=
  fun a =>
    if (addr <=? a) && (a <? addr + Z.of_nat (List.length bs))
    then nth (Z.to_nat (a - addr)) bs Byte.x00
    else m a.

Definition load_u32 (m : memory) (addr : Z) : Z := le_combine (load_bytes m addr 4).
Definition load_u64 (m : memory) (addr : Z) : Z := le_combine (load_bytes m addr 8).
Definition store_u32 (m : memory) (addr v : Z) : memory := store_bytes m addr (le_split 4 v).

(** Two memories with the same content. *)
Definition mem_eq (m1 m2 : memory) : Prop := forall a, m1 a = m2 a.

(** ** Observable events *)

Inductive log_level := LOG_NORMAL | LOG_ERROR.

(** Argument of a [mHSS_DEBUG_PRINTF]: a number, a literal string, or the
    address of a string in memory (for [%s] of a buffer, and for [%p]). *)
Inductive printf_arg :=
| Int (z : Z)
| Str (s : string)
| Ptr (p : Z).

Inductive gpt_call :=
| GPT_RegisterReadBlockFunction_
| GPT_ReadHeader_
| GPT_ValidateHeader_
| GPT_ValidatePartitionEntries_
| GPT_FindPartitionByTypeId_.

Inductive event :=
| Printf (lvl : log_level) (fmt : string) (args : list printf_arg)
| Call_MMC_ReadBlock (pDest srcOffset byteCount : Z) (ok : bool)
| Call_QSPI_ReadBlock (pDest srcOffset byteCount : Z) (ok : bool)
| Call_spi_copy (dst offs count : Z) (retval : Z)
| Call_select_service_mode
| Call_GPT (fn : gpt_call) (ok : bool)
| Call_CRC32_calculate (pInput numBytes : Z) (crc : Z)
| Call_Decompress (pInput pOutput : Z) (outputSize : Z)
| Call_Register_Boot_Image (pBootImage : Z)
| Call_Boot_RestartCore (source : Z) (ret : Z)
| Call_Boot_Custom (ret : bool).

(** ** Build configuration and struct layout

    [config.h], [hss_types.h] and the linker script are not part of the
    sources; what the code takes from them is a parameter here.  The
    [offsetof_*] fields give the layout of [struct HSS_BootImage]. *)

Record Config := {
  CONFIG_SERVICE_BOOT : bool;
  CONFIG_COMPRESSION : bool;
  CONFIG_SERVICE_BOOT_CUSTOM_FLOW : bool;
  CONFIG_SERVICE_BOOT_MMC_USE_GPT : bool;
  CONFIG_SERVICE_QSPI_USE_XIP : bool;
  BOOT_DEBUG : bool;
  CONFIG_SERVICE_BOOT_DDR_TARGET_ADDR : Z;
  CONFIG_SERVICE_BOOT_SPI_FLASH_OFFSET : Z;
  QSPI_BASE : Z;
  GPT_LBA_SIZE : Z;
  _payload_start : Z;            (* &_payload_start *)
  bootImage : Z;                 (* &bootImage, the scratch header *)
  mHSS_BOOT_MAGIC : Z;
  mHSS_COMPRESSED_MAGIC : Z;
  IPI_SUCCESS : Z;
  HSS_HART_ALL : Z;
  sizeof_HSS_BootImage : Z;
  offsetof_magic : Z;
  offsetof_headerCrc : Z;
  offsetof_bootImageLength : Z;
  offsetof_set_name : Z
}.

(** ** The world and the collaborators *)

Record World (Ext : Type) := mkWorld { mem : memory; ext : Ext }.
Arguments mkWorld {Ext} mem ext.
Arguments mem {Ext} w.
Arguments ext {Ext} w.

(** The external functions the file calls.  [Ext] is whatever state they
    keep (media, controller, boot service).  Each one may change memory
    and its own state; [CRC32_calculate] is a pure function of the bytes
    it is given and [GPT_ValidateHeader] is kept as general as the rest. *)
Class Externals (Ext : Type) := {
  CRC32_calculate : list byte -> Z;
  HSS_MMC_ReadBlock : Z -> Z -> Z -> World Ext -> bool * World Ext;
  HSS_QSPI_ReadBlock : Z -> Z -> Z -> World Ext -> bool * World Ext;
  MSS_SYS_spi_copy : Z -> Z -> Z -> Z -> Z -> World Ext -> Z * World Ext;
  MSS_SYS_select_service_mode : World Ext -> unit * World Ext;
  GPT_RegisterReadBlockFunction : World Ext -> unit * World Ext;
  GPT_ReadHeader : World Ext -> bool * World Ext;
  GPT_ValidateHeader : World Ext -> bool * World Ext;
  GPT_ValidatePartitionEntries : World Ext -> bool * World Ext;
  (* result, firstLBA, lastLBA *)
  GPT_FindPartitionByTypeId : Z * Z * Z * Z -> World Ext -> (bool * Z * Z) * World Ext;
  HSS_Decompress : Z -> Z -> World Ext -> Z * World Ext;
  HSS_Register_Boot_Image : Z -> World Ext -> unit * World Ext;
  HSS_Boot_RestartCore : Z -> World Ext -> Z * World Ext;
  HSS_Boot_Custom : World Ext -> bool * World Ext
}.

(** ** The monad: world passing plus the events of the call *)

Definition M (Ext A : Type) : Type := World Ext -> A * World Ext * list event.

Definition ret {Ext A} (a : A) : M Ext A := fun w => (a, w, []).

Definition bind {Ext A B} (c : M Ext A) (k : A -> M Ext B) : M Ext B :=
  fun w =>
    let '(a, w1, e1) := c w in
    let '(b, w2, e2) := k a w1 in
    (b, w2, e1 ++ e2).

Notation "x <- c ;; k" := (bind c (fun x => k))
  (at level 61, c at next level, right associativity).
Notation "' pat <- c ;; k" := (bind c (fun x => match x with pat => k end))
  (at level 61, pat pattern, c at next level, right associativity).
Notation "c ;; k" := (bind c (fun _ => k))
  (at level 61, right associativity).

Definition get_mem {Ext} : M Ext memory := fun w => (mem w, w, []).
Definition put_mem {Ext} (m : memory) : M Ext unit :=
  fun w => (tt, mkWorld m (ext w), []).
Definition emit {Ext} (e : event) : M Ext unit := fun w => (tt, w, [e]).

(** Call of a collaborator, recorded with its result. *)
Definition call {Ext A} (f : World Ext -> A * World Ext) (ev : A -> event) : M Ext A :=
  fun w => let '(a, w1) := f w in (a, w1, [ev a]).

(** [mHSS_DEBUG_PRINTF(level, fmt CRLF, args)]; the trailing CRLF is left out
    of [fmt]. *)
Definition mHSS_DEBUG_PRINTF {Ext} (lvl : log_level) (fmt : string)
    (args : list printf_arg) : M Ext unit :=
  emit (Printf lvl fmt args).

Definition result_of {Ext A} (r : A * World Ext * list event) : A := fst (fst r).
Definition world_of {Ext A} (r : A * World Ext * list event) : World Ext := snd (fst r).
Definition events_of {Ext A} (r : A * World Ext * list event) : list event := snd r.

(** ** Classes of events *)

(** Format of the diagnostic print of the CRC32 over the whole image
    (line 185). *)
Definition diag_crc_fmt : string := "Calculated CRC32 of image in DDR is 0x%08x".

(** Message of the first inner branch of the decompression block (line 128). *)
Definition cannot_decompress_fmt : string := "Failed to get boot image, cannot decompress".

(** What a source reader can emit: its own prints and the calls to its
    medium and to the partition-table functions. *)
Definition reader_event (e : event) : bool :=
  match e with
  | Printf _ fmt _ =>
      negb (String.eqb fmt diag_crc_fmt) && negb (String.eqb fmt cannot_decompress_fmt)
  | Call_MMC_ReadBlock _ _ _ _ | Call_QSPI_ReadBlock _ _ _ _ | Call_spi_copy _ _ _ _
  | Call_select_service_mode | Call_GPT _ _ => true
  | _ => false
  end.

(** What the acquisition stage (reader, then decompression block) can emit. *)
Definition acquire_event (e : event) : bool :=
  match e with
  | Call_Decompress _ _ _ => true
  | _ => reader_event e
  end.

Definition is_register (e : event) : bool :=
  match e with Call_Register_Boot_Image _ => true | _ => false end.

Definition is_decompress (e : event) : bool :=
  match e with Call_Decompress _ _ _ => true | _ => false end.

Definition is_crc32 (e : event) : bool :=
  match e with Call_CRC32_calculate _ _ _ => true | _ => false end.

Section BootInit.

Context {Ext : Type} {E : Externals Ext} (cfg : Config).

Local Abbreviation M := (M Ext).

Definition load32 (addr : Z) : M Z := m <- get_mem ;; ret (load_u32 m addr).
Definition load64 (addr : Z) : M Z := m <- get_mem ;; ret (load_u64 m addr).
Definition store32 (addr v : Z) : M unit := m <- get_mem ;; put_mem (store_u32 m addr v).

(** [CRC32_calculate(p, n)] over the [n] bytes at [p], returning [uint32_t]. *)
Definition CRC32_calculate_at (p n : Z) : M Z :=
  m <- get_mem ;;
  let crc := u32 (CRC32_calculate (load_bytes m p (Z.to_nat n))) in
  emit (Call_CRC32_calculate p n crc) ;;
  ret crc.

(** *** validateCrc_ (lines 196-216) *)
Definition validateCrc_ (pImageHdr : Z) : M bool :=
  originalCrc <- load32 (pImageHdr + offsetof_headerCrc cfg) ;;
  store32 (pImageHdr + offsetof_headerCrc cfg) 0 ;;
  headerCrc <- CRC32_calculate_at pImageHdr (sizeof_HSS_BootImage cfg) ;;
  result <-
    (if headerCrc =? originalCrc then ret true
     else
       mHSS_DEBUG_PRINTF LOG_ERROR
         "Checked HSS_BootImage header CRC (%p->%p): calculated %08x vs expected %08x"
         [Ptr pImageHdr; Ptr (pImageHdr + sizeof_HSS_BootImage cfg);
          Int headerCrc; Int originalCrc] ;;
       ret false) ;;
  (* restore original headerCrc *)
  store32 (pImageHdr + offsetof_headerCrc cfg) originalCrc ;;
  ret result.

(** *** printBootImageDetails_ (lines 218-225) *)
Definition printBootImageDetails_ (pBootImage : Z) : M unit :=
  if BOOT_DEBUG cfg then
    magic <- load32 (pBootImage + offsetof_magic cfg) ;;
    len <- load64 (pBootImage + offsetof_bootImageLength cfg) ;;
    mHSS_DEBUG_PRINTF LOG_NORMAL " - set name is >>%s<<"
      [Ptr (pBootImage + offsetof_set_name cfg)] ;;
    mHSS_DEBUG_PRINTF LOG_NORMAL " - magic is    %08X" [Int magic] ;;
    mHSS_DEBUG_PRINTF LOG_NORMAL " - length is   %08X" [Int len]
  else ret tt.

(** *** copyBootImageToDDR_ (lines 228-241) *)
Definition HSS_BootImageCopyFnPtr_t := Z -> Z -> Z -> M bool.

Definition copyBootImageToDDR_ (pBootImage pDest srcOffset : Z)
    (pCopyFunction : HSS_BootImageCopyFnPtr_t) : M bool :=
  printBootImageDetails_ pBootImage ;;
  len <- load64 (pBootImage + offsetof_bootImageLength cfg) ;;
  mHSS_DEBUG_PRINTF LOG_NORMAL "Copying %lu bytes to 0x%x" [Int len; Ptr pDest] ;;
  result <- pCopyFunction pDest srcOffset len ;;
  ret result.

(** *** verifyMagic_ (lines 244-256) *)
Definition verifyMagic_ (pBootImage : Z) : M bool :=
  magic <- load32 (pBootImage + offsetof_magic cfg) ;;
  if (magic =? mHSS_BOOT_MAGIC cfg) || (magic =? mHSS_COMPRESSED_MAGIC cfg) then
    ret true
  else
    mHSS_DEBUG_PRINTF LOG_ERROR "magic is %08x vs expected %08x or %08x"
      [Int magic; Int (mHSS_BOOT_MAGIC cfg); Int (mHSS_COMPRESSED_MAGIC cfg)] ;;
    ret false.

(** *** getBootImageFromMMC_ (lines 263-346)

    A reader receives the current content of [*ppBootImage] and returns its
    result together with the new content.  [ppBootImage] is the address of a
    local of the caller, so the [assert] on it always passes. *)

(** The partition lookup, lines 277-317: yields [result] and [srcOffset].
    [lbaBuffer] is a local array handed to the GPT functions only; it lives
    in their part of the world.  So do the block reads the GPT functions
    make through the function registered at line 283: they happen inside the
    GPT collaborators and are not recorded as [Call_MMC_ReadBlock] events,
    which stand for the reads the reader issues itself. *)
Definition getBootImageFromMMC_GPT_lookup (srcOffset : Z) : M (bool * Z) :=
  call GPT_RegisterReadBlockFunction (fun _ => Call_GPT GPT_RegisterReadBlockFunction_ true) ;;
  result <- call GPT_ReadHeader (Call_GPT GPT_ReadHeader_) ;;
  result <-
    (if result then
       result <- call GPT_ValidateHeader (Call_GPT GPT_ValidateHeader_) ;;
       if result then
         result <- call GPT_ValidatePartitionEntries (Call_GPT GPT_ValidatePartitionEntries_) ;;
         (if negb result then
            mHSS_DEBUG_PRINTF LOG_ERROR "GPT_ValidatePartitionEntries() failed" []
          else ret tt) ;;
         ret result
       else ret result
     else ret result) ;;
  if result then
    let diskGUID := (0x21686148, 0x6449, 0x6E6F, 0x4946456465654e74) in
    '(result, firstLBA, lastLBA) <-
       call (GPT_FindPartitionByTypeId diskGUID)
            (fun r => Call_GPT GPT_FindPartitionByTypeId_ (fst (fst r))) ;;
    if negb result then
      mHSS_DEBUG_PRINTF LOG_ERROR "GPT_FindPartitionByUniqueId() failed" [] ;;
      ret (result, srcOffset)
    else ret (result, u64 firstLBA)
  else ret (result, srcOffset).

Definition HSS_MMC_ReadBlock_ : HSS_BootImageCopyFnPtr_t :=
  fun pDest srcOffset byteCount =>
    call (HSS_MMC_ReadBlock pDest srcOffset byteCount)
         (Call_MMC_ReadBlock pDest srcOffset byteCount).

(** The generic two-step read, lines 321-343 (the block whose guard
    [if (result)] is commented out). *)
Definition getBootImageFromMMC_read (srcOffset pBootImage : Z) : M (bool * Z) :=
  result <- HSS_MMC_ReadBlock_ (bootImage cfg) (u64 (srcOffset * GPT_LBA_SIZE cfg))
              (sizeof_HSS_BootImage cfg) ;;
  if negb result then
    mHSS_DEBUG_PRINTF LOG_ERROR "HSS_MMC_ReadBlock() failed" [] ;;
    ret (result, pBootImage)
  else
    result <- verifyMagic_ (bootImage cfg) ;;
    if negb result then
      mHSS_DEBUG_PRINTF LOG_ERROR "verifyMagic_() failed" [] ;;
      ret (result, pBootImage)
    else
      result <- copyBootImageToDDR_ (bootImage cfg)
                  (CONFIG_SERVICE_BOOT_DDR_TARGET_ADDR cfg)
                  (u64 (srcOffset * GPT_LBA_SIZE cfg)) HSS_MMC_ReadBlock_ ;;
      let pBootImage := CONFIG_SERVICE_BOOT_DDR_TARGET_ADDR cfg in
      (if negb result then
         mHSS_DEBUG_PRINTF LOG_ERROR "copyBootImageToDDR_() failed" []
       else ret tt) ;;
      ret (result, pBootImage).

Definition getBootImageFromMMC_ (pBootImage : Z) : M (bool * Z) :=
  let result := true in
  mHSS_DEBUG_PRINTF LOG_NORMAL "Preparing to copy from MMC to DDR ..." [] ;;
  mHSS_DEBUG_PRINTF LOG_NORMAL "Attempting to read image header (%d bytes) ..."
    [Int (sizeof_HSS_BootImage cfg)] ;;
  let srcOffset := 0 in
  '(result, srcOffset) <-
     (if CONFIG_SERVICE_BOOT_MMC_USE_GPT cfg then getBootImageFromMMC_GPT_lookup srcOffset
      else ret (result, srcOffset)) ;;
  (* Even if we have GPT enabled and it fails to find a GPT partition,
     we'll still try to boot: [result] is not consulted. *)
  getBootImageFromMMC_read srcOffset pBootImage.

(** *** getBootImageFromQSPI_ (lines 356-387)

    In the XIP branch the source passes [**ppBootImage] to [verifyMagic_];
    the argument meant is the pointer [*ppBootImage]. *)
Definition HSS_QSPI_ReadBlock_ : HSS_BootImageCopyFnPtr_t :=
  fun pDest srcOffset byteCount =>
    call (HSS_QSPI_ReadBlock pDest srcOffset byteCount)
         (Call_QSPI_ReadBlock pDest srcOffset byteCount).

Definition getBootImageFromQSPI_ (pBootImage : Z) : M (bool * Z) :=
  if negb (CONFIG_SERVICE_QSPI_USE_XIP cfg) then
    mHSS_DEBUG_PRINTF LOG_NORMAL "Preparing to copy from QSPI to DDR ..." [] ;;
    mHSS_DEBUG_PRINTF LOG_NORMAL "Attempting to read image header (%d bytes) ..."
      [Int (sizeof_HSS_BootImage cfg)] ;;
    let srcOffset := 0 in
    (* the value returned by this read is dropped *)
    HSS_QSPI_ReadBlock_ (bootImage cfg) srcOffset (sizeof_HSS_BootImage cfg) ;;
    result <- verifyMagic_ (bootImage cfg) ;;
    if result then
      result <- copyBootImageToDDR_ (bootImage cfg)
                  (CONFIG_SERVICE_BOOT_DDR_TARGET_ADDR cfg) srcOffset HSS_QSPI_ReadBlock_ ;;
      ret (result, CONFIG_SERVICE_BOOT_DDR_TARGET_ADDR cfg)
    else ret (result, pBootImage)
  else
    let pBootImage := QSPI_BASE cfg in
    result <- verifyMagic_ pBootImage ;;
    ret (result, pBootImage).

(** *** getBootImageFromPayload_ (lines 397-410) *)
Definition getBootImageFromPayload_ (pBootImage : Z) : M (bool * Z) :=
  let pBootImage := _payload_start cfg in
  result <- verifyMagic_ pBootImage ;;
  printBootImageDetails_ pBootImage ;;
  ret (result, pBootImage).

(** *** spiFlashReadBlock_ (lines 420-429); [mb()] is a memory barrier. *)
Definition spiFlashReadBlock_ : HSS_BootImageCopyFnPtr_t :=
  fun dst offs count =>
    retval <- call (MSS_SYS_spi_copy dst offs count 3 0) (Call_spi_copy dst offs count) ;;
    (if negb (retval =? 0) then
       mHSS_DEBUG_PRINTF LOG_ERROR
         "Failed to read 0x%lx bytes from SPI flash @0x%lx (error code %d)!"
         [Int count; Int offs; Int retval]
     else ret tt) ;;
    ret (retval =? 0).

(** *** getBootImageFromSpiFlash_ (lines 431-459) *)
Definition getBootImageFromSpiFlash_ (pBootImage : Z) : M (bool * Z) :=
  let srcOffset := u64 (CONFIG_SERVICE_BOOT_SPI_FLASH_OFFSET cfg) in
  mHSS_DEBUG_PRINTF LOG_NORMAL "Preparing to copy from SPI Flash +0x%lx to DDR ..."
    [Int srcOffset] ;;
  mHSS_DEBUG_PRINTF LOG_NORMAL "Attempting to read image header (%d bytes) ..."
    [Int (sizeof_HSS_BootImage cfg)] ;;
  call MSS_SYS_select_service_mode (fun _ => Call_select_service_mode) ;;
  result <- spiFlashReadBlock_ (bootImage cfg) srcOffset (sizeof_HSS_BootImage cfg) ;;
  if negb result then ret (false, pBootImage)
  else
    result <- verifyMagic_ (bootImage cfg) ;;
    if negb result then ret (false, pBootImage)
    else
      result <- copyBootImageToDDR_ (bootImage cfg)
                  (CONFIG_SERVICE_BOOT_DDR_TARGET_ADDR cfg) srcOffset spiFlashReadBlock_ ;;
      ret (result, CONFIG_SERVICE_BOOT_DDR_TARGET_ADDR cfg).

(** *** The active reader (lines 94-107 and the HSS_BootSelect functions)

    [getBootImageFunction] is a global function pointer; its possible
    values are the four readers. *)
Inductive HSS_GetBootImageFnPtr_t :=
| FromSpiFlash
| FromMMC
| FromQSPI
| FromPayload.

Definition call_getBootImageFunction (f : HSS_GetBootImageFnPtr_t)
    (pBootImage : Z) : M (bool * Z) :=
  match f with
  | FromSpiFlash => getBootImageFromSpiFlash_ pBootImage
  | FromMMC => getBootImageFromMMC_ pBootImage
  | FromQSPI => getBootImageFromQSPI_ pBootImage
  | FromPayload => getBootImageFromPayload_ pBootImage
  end.

(** The selection functions print and assign the global; they yield its
    new value. *)
Definition HSS_BootSelectMMC : M HSS_GetBootImageFnPtr_t :=
  mHSS_DEBUG_PRINTF LOG_NORMAL "Selecting MMC as boot source ..." [] ;; ret FromMMC.

Definition HSS_BootSelectQSPI : M HSS_GetBootImageFnPtr_t :=
  mHSS_DEBUG_PRINTF LOG_NORMAL "Selecting QSPI as boot source ..." [] ;; ret FromQSPI.

Definition HSS_BootSelectPayload : M HSS_GetBootImageFnPtr_t :=
  mHSS_DEBUG_PRINTF LOG_NORMAL "Selecting Payload as boot source ..." [] ;; ret FromPayload.

Definition HSS_BootSelectSPI : M HSS_GetBootImageFnPtr_t :=
  mHSS_DEBUG_PRINTF LOG_NORMAL "Selecting SPI Flash as boot source ..." [] ;; ret FromSpiFlash.

(** *** HSS_BootInit (lines 109-192) *)

(** Lines 133-144: the decompressor is run; yields the new [pBootImage]. *)
Definition HSS_BootInit_decompress_to_DDR (pBootImage : Z) : M Z :=
  mHSS_DEBUG_PRINTF LOG_NORMAL "Preparing to decompress to DDR..." [] ;;
  let pInput := pBootImage in
  let pOutputInDDR := CONFIG_SERVICE_BOOT_DDR_TARGET_ADDR cfg in
  outputSize <- call (HSS_Decompress pInput pOutputInDDR)
                     (Call_Decompress pInput pOutputInDDR) ;;
  mHSS_DEBUG_PRINTF LOG_NORMAL "decompressed %d bytes..." [Int outputSize] ;;
  if negb (outputSize =? 0) then ret pOutputInDDR else ret NULL.

(** Lines 124-147: the decompression block.  Takes and returns the locals
    [result], [pBootImage] and [decompressedFlag]. *)
Definition HSS_BootInit_decompress (result : bool) (pBootImage : Z)
    (decompressedFlag : bool) : M (bool * Z * bool) :=
  if CONFIG_COMPRESSION cfg then
    m <- get_mem ;;
    if result && (load_u32 m (pBootImage + offsetof_magic cfg) =? mHSS_COMPRESSED_MAGIC cfg)
    then
      let decompressedFlag := true in
      if negb result then
        mHSS_DEBUG_PRINTF LOG_ERROR "Failed to get boot image, cannot decompress" [] ;;
        ret (result, pBootImage, decompressedFlag)
      else if pBootImage =? NULL then
        mHSS_DEBUG_PRINTF LOG_ERROR "Boot Image NULL, ignoring" [] ;;
        ret (false, pBootImage, decompressedFlag)
      else
        pBootImage <- HSS_BootInit_decompress_to_DDR pBootImage ;;
        ret (result, pBootImage, decompressedFlag)
    else ret (result, pBootImage, decompressedFlag)
  else ret (result, pBootImage, decompressedFlag).

(** Lines 118-147: the active reader, then the decompression block. *)
Definition HSS_BootInit_acquire (getBootImageFunction : HSS_GetBootImageFnPtr_t)
    (pBootImage : Z) (decompressedFlag : bool) : M (bool * Z * bool) :=
  '(result, pBootImage) <- call_getBootImageFunction getBootImageFunction pBootImage ;;
  HSS_BootInit_decompress result pBootImage decompressedFlag.

Definition dquote : string := String (ascii_of_nat 34) EmptyString.

(** The format of line 168: the set name between double quotes. *)
Definition fmt_set_name : string :=
  String.append "Boot image set name: " (String.append dquote (String.append "%s" dquote)).

(** Lines 152-188: the validation block; yields [result]. *)
Definition HSS_BootInit_validate (result : bool) (pBootImage : Z)
    (decompressedFlag : bool) : M bool :=
  if pBootImage =? NULL then
    mHSS_DEBUG_PRINTF LOG_ERROR "Boot Image NULL, ignoring" [] ;;
    ret false
  else
    magic <- load32 (pBootImage + offsetof_magic cfg) ;;
    if negb (magic =? mHSS_BOOT_MAGIC cfg) then
      mHSS_DEBUG_PRINTF LOG_ERROR "Boot Image magic invalid, ignoring" [] ;;
      ret false
    else
      crcOk <- validateCrc_ pBootImage ;;
      if crcOk then
        mHSS_DEBUG_PRINTF LOG_NORMAL "%s boot image passed CRC"
          [Str (if decompressedFlag then "decompressed" else EmptyString)] ;;
        mHSS_DEBUG_PRINTF LOG_NORMAL fmt_set_name
          [Ptr (pBootImage + offsetof_set_name cfg)] ;;
        call (HSS_Register_Boot_Image pBootImage)
             (fun _ => Call_Register_Boot_Image pBootImage) ;;
        mHSS_DEBUG_PRINTF LOG_NORMAL "Boot Image registered..." [] ;;
        if CONFIG_SERVICE_BOOT_CUSTOM_FLOW cfg then
          call HSS_Boot_Custom Call_Boot_Custom
        else
          rc <- call (HSS_Boot_RestartCore (HSS_HART_ALL cfg))
                     (Call_Boot_RestartCore (HSS_HART_ALL cfg)) ;;
          if rc =? IPI_SUCCESS cfg then ret true else ret false
      else
        mHSS_DEBUG_PRINTF LOG_ERROR "%s boot image failed CRC"
          [Str (if decompressedFlag then "decompressed" else EmptyString)] ;;
        len <- load64 (pBootImage + offsetof_bootImageLength cfg) ;;
        crc <- CRC32_calculate_at pBootImage len ;;
        mHSS_DEBUG_PRINTF LOG_NORMAL "Calculated CRC32 of image in DDR is 0x%08x"
          [Int crc] ;;
        ret result.

Definition HSS_BootInit (getBootImageFunction : HSS_GetBootImageFnPtr_t) : M bool :=
  let result := false in
  let decompressedFlag := false in
  let pBootImage := NULL in
  mHSS_DEBUG_PRINTF LOG_NORMAL "Initializing Boot Image.." [] ;;
  if CONFIG_SERVICE_BOOT cfg then
    '(result, pBootImage, decompressedFlag) <-
       HSS_BootInit_acquire getBootImageFunction pBootImage decompressedFlag ;;
    HSS_BootInit_validate result pBootImage decompressedFlag
  else ret result.

(** *** Vocabulary for the statements

    The [sizeof(struct HSS_BootImage)] bytes at [p] with the headerCrc field
    zeroed, and the header check of the specification: the CRC32 of those
    bytes equals the stored headerCrc. *)
Definition header_bytes_crc_zeroed (m : memory) (p : Z) : list byte :=
  load_bytes (store_u32 m (p + offsetof_headerCrc cfg) 0) p
    (Z.to_nat (sizeof_HSS_BootImage cfg)).

Definition header_crc_matches (m : memory) (p : Z) : bool :=
  u32 (CRC32_calculate (header_bytes_crc_zeroed m p))
    =? load_u32 m (p + offsetof_headerCrc cfg).

Definition magic_at (m : memory) (p : Z) : Z := load_u32 m (p + offsetof_magic cfg).

(** *** The exits of the validation block

    [validate_exit result pBootImage decompressedFlag w out]: the block of
    lines 152-188, entered with these locals in world [w], leaves through one
    of its four branches with outcome [out] (result, world, events). *)
Inductive validate_exit (result : bool) (pBootImage : Z) (decompressedFlag : bool)
    (w : World Ext) : bool * World Ext * list event -> Prop :=
| exit_null :
    pBootImage = NULL ->
    validate_exit result pBootImage decompressedFlag w
      (false, w, [Printf LOG_ERROR "Boot Image NULL, ignoring" []])
| exit_magic :
    pBootImage <> NULL ->
    magic_at (mem w) pBootImage <> mHSS_BOOT_MAGIC cfg ->
    validate_exit result pBootImage decompressedFlag w
      (false, w, [Printf LOG_ERROR "Boot Image magic invalid, ignoring" []])
| exit_registered w1 evc u w2 res w3 launch :
    pBootImage <> NULL ->
    magic_at (mem w) pBootImage = mHSS_BOOT_MAGIC cfg ->
    validateCrc_ pBootImage w = (true, w1, evc) ->
    HSS_Register_Boot_Image pBootImage w1 = (u, w2) ->
    (if CONFIG_SERVICE_BOOT_CUSTOM_FLOW cfg
     then HSS_Boot_Custom w2 = (res, w3) /\ launch = Call_Boot_Custom res
     else exists rc, HSS_Boot_RestartCore (HSS_HART_ALL cfg) w2 = (rc, w3) /\
                     res = (rc =? IPI_SUCCESS cfg) /\
                     launch = Call_Boot_RestartCore (HSS_HART_ALL cfg) rc) ->
    validate_exit result pBootImage decompressedFlag w
      (res, w3,
       evc ++ [Printf LOG_NORMAL "%s boot image passed CRC" [Str (if decompressedFlag then "decompressed" else EmptyString)];
               Printf LOG_NORMAL fmt_set_name [Ptr (pBootImage + offsetof_set_name cfg)];
               Call_Register_Boot_Image pBootImage;
               Printf LOG_NORMAL "Boot Image registered..." [];
               launch])
| exit_crc_failed w1 evc len crc :
    pBootImage <> NULL ->
    magic_at (mem w) pBootImage = mHSS_BOOT_MAGIC cfg ->
    validateCrc_ pBootImage w = (false, w1, evc) ->
    len = load_u64 (mem w1) (pBootImage + offsetof_bootImageLength cfg) ->
    crc = u32 (CRC32_calculate (load_bytes (mem w1) pBootImage (Z.to_nat len))) ->
    validate_exit result pBootImage decompressedFlag w
      (result, w1,
       evc ++ [Printf LOG_ERROR "%s boot image failed CRC" [Str (if decompressedFlag then "decompressed" else EmptyString)];
               Call_CRC32_calculate pBootImage len crc;
               Printf LOG_NORMAL diag_crc_fmt [Int crc]]).

End BootInit.

(** The collaborators with another CRC32 primitive in place of the given one. *)
Definition with_CRC32 {Ext : Type} (E : Externals Ext) (crc : list byte -> Z)
  : Externals Ext := {|
  CRC32_calculate := crc;
  HSS_MMC_ReadBlock := HSS_MMC_ReadBlock (Externals := E);
  HSS_QSPI_ReadBlock := HSS_QSPI_ReadBlock (Externals := E);
  MSS_SYS_spi_copy := MSS_SYS_spi_copy (Externals := E);
  MSS_SYS_select_service_mode := MSS_SYS_select_service_mode (Externals := E);
  GPT_RegisterReadBlockFunction := GPT_RegisterReadBlockFunction (Externals := E);
  GPT_ReadHeader := GPT_ReadHeader (Externals := E);
  GPT_ValidateHeader := GPT_ValidateHeader (Externals := E);
  GPT_ValidatePartitionEntries := GPT_ValidatePartitionEntries (Externals := E);
  GPT_FindPartitionByTypeId := GPT_FindPartitionByTypeId (Externals := E);
  HSS_Decompress := HSS_Decompress (Externals := E);
  HSS_Register_Boot_Image := HSS_Register_Boot_Image (Externals := E);
  HSS_Boot_RestartCore := HSS_Boot_RestartCore (Externals := E);
  HSS_Boot_Custom := HSS_Boot_Custom (Externals := E)
|}.

(** ** More classes of events *)

Definition is_launch (e : event) : bool :=
  match e with
  | Call_Boot_RestartCore _ _ | Call_Boot_Custom _ => true
  | _ => false
  end.

Definition is_printf (e : event) : bool :=
  match e with Printf _ _ _ => true | _ => false end.

(** Calls that read a medium or its partition table. *)
Definition reads_medium (e : event) : bool :=
  match e with
  | Call_MMC_ReadBlock _ _ _ _ | Call_QSPI_ReadBlock _ _ _ _ | Call_spi_copy _ _ _ _
  | Call_GPT _ _ => true
  | _ => false
  end.

(** Block reads from a medium. *)
Definition is_block_read (e : event) : bool :=
  match e with
  | Call_MMC_ReadBlock _ _ _ _ | Call_QSPI_ReadBlock _ _ _ _ | Call_spi_copy _ _ _ _ => true
  | _ => false
  end.

(** The events proper to each reader under a configuration: prints, and
    the calls to its own medium. *)
Definition reader_may_emit (cfg : Config) (f : HSS_GetBootImageFnPtr_t) (e : event) : bool :=
  match e, f with
  | Printf _ _ _, _ => true
  | Call_spi_copy _ _ _ _, FromSpiFlash => true
  | Call_select_service_mode, FromSpiFlash => true
  | Call_MMC_ReadBlock _ _ _ _, FromMMC => true
  | Call_GPT _ _, FromMMC => CONFIG_SERVICE_BOOT_MMC_USE_GPT cfg
  | Call_QSPI_ReadBlock _ _ _ _, FromQSPI => true
  | _, _ => false
  end.

(** The test of [verifyMagic_] on the header at [p], as a boolean. *)
Definition magic_recognised (cfg : Config) (m : memory) (p : Z) : bool :=
  (magic_at cfg m p =? mHSS_BOOT_MAGIC cfg) || (magic_at cfg m p =? mHSS_COMPRESSED_MAGIC cfg).

(** * A concrete board

    One instance of the configuration and of the collaborators, to run the
    code on.  The three block-read primitives read from one medium, and the
    [n]-th read fails when [read_fails n] says so, leaving memory as it
    was. *)
Module Sample.

(** CRC-32 as in IEEE 802.3 (reflected polynomial EDB88320). *)
Definition crc32_bit (crc : Z) : Z :=
  if Z.testbit crc 0 then Z.lxor (Z.shiftr crc 1) 0xEDB88320 else Z.shiftr crc 1.

Definition crc32_update (crc : Z) (b : byte) : Z :=
  Nat.iter 8 crc32_bit (Z.lxor crc (byte.unsigned b)).

Definition crc32 (bs : list byte) : Z :=
  Z.lxor (fold_left crc32_update bs 0xFFFFFFFF) 0xFFFFFFFF.

(** A primitive that is CRC-32 on inputs of the length of the header and
    constant on every other input. *)
Definition crc32_header_only (bs : list byte) : Z :=
  if Nat.eqb (List.length bs) 64 then crc32 bs else 0.

Definition cfg : Config := {|
  CONFIG_SERVICE_BOOT := true;
  CONFIG_COMPRESSION := true;
  CONFIG_SERVICE_BOOT_CUSTOM_FLOW := false;
  CONFIG_SERVICE_BOOT_MMC_USE_GPT := true;
  CONFIG_SERVICE_QSPI_USE_XIP := false;
  BOOT_DEBUG := false;
  CONFIG_SERVICE_BOOT_DDR_TARGET_ADDR := 0xA0000000;
  CONFIG_SERVICE_BOOT_SPI_FLASH_OFFSET := 0x400;
  QSPI_BASE := 0x21000000;
  GPT_LBA_SIZE := 512;
  _payload_start := 0x20220000;
  bootImage := 0x08001000;
  mHSS_BOOT_MAGIC := 0xB007C0DE;
  mHSS_COMPRESSED_MAGIC := 0xC08B8355;
  IPI_SUCCESS := 0;
  HSS_HART_ALL := 5;
  sizeof_HSS_BootImage := 64;
  offsetof_magic := 0;
  offsetof_headerCrc := 16;
  offsetof_bootImageLength := 56;
  offsetof_set_name := 20
|}.

Record Board := mkBoard {
  media : Z -> byte;            (* the medium, by byte offset *)
  reads : nat;                  (* block reads issued so far *)
  read_fails : nat -> bool;     (* does the n-th block read fail *)
  gpt_found : bool;             (* is there a table with the boot partition *)
  gpt_firstLBA : Z;
  decompress_size : Z;          (* what the decompressor returns *)
  restart_code : Z;             (* what HSS_Boot_RestartCore returns *)
  registered : list Z           (* images handed to the boot service *)
}.

Definition read_block (pDest srcOffset byteCount : Z) (w : World Board)
  : bool * World Board :=
  let b := ext w in
  let b' := mkBoard (media b) (S (reads b)) (read_fails b) (gpt_found b)
              (gpt_firstLBA b) (decompress_size b) (restart_code b) (registered b) in
  if read_fails b (reads b) then (false, mkWorld (mem w) b')
  else (true,
        mkWorld (store_bytes (mem w) pDest
                   (load_bytes (media b) srcOffset (Z.to_nat byteCount))) b').

Definition register (p : Z) (w : World Board) : unit * World Board :=
  let b := ext w in
  (tt, mkWorld (mem w)
         (mkBoard (media b) (reads b) (read_fails b) (gpt_found b) (gpt_firstLBA b)
            (decompress_size b) (restart_code b) (p :: registered b))).

#[export] Instance board : Externals Board := {|
  CRC32_calculate := crc32;
  HSS_MMC_ReadBlock := read_block;
  HSS_QSPI_ReadBlock := read_block;
  MSS_SYS_spi_copy := fun dst offs count _ _ w =>
    let '(ok, w') := read_block dst offs count w in ((if ok then 0 else 1), w');
  MSS_SYS_select_service_mode := fun w => (tt, w);
  GPT_RegisterReadBlockFunction := fun w => (tt, w);
  GPT_ReadHeader := fun w => (gpt_found (ext w), w);
  GPT_ValidateHeader := fun w => (gpt_found (ext w), w);
  GPT_ValidatePartitionEntries := fun w => (gpt_found (ext w), w);
  GPT_FindPartitionByTypeId := fun _ w =>
    ((gpt_found (ext w), gpt_firstLBA (ext w), gpt_firstLBA (ext w)), w);
  HSS_Decompress := fun _ _ w => (decompress_size (ext w), w);
  HSS_Register_Boot_Image := register;
  HSS_Boot_RestartCore := fun _ w => (restart_code (ext w), w);
  HSS_Boot_Custom := fun w => (true, w)
|}.

(** An 80-byte image: a 64-byte header (magic, version, headerLength,
    headerCrc, set name, padding, bootImageLength) and 16 bytes of payload. *)
Definition image_with (magic crc : Z) : list byte :=
  le_split 4 magic ++ le_split 4 1 ++ le_split 8 64 ++ le_split 4 crc
  ++ map byte.of_Z [116; 101; 115; 116] ++ repeat Byte.x00 28
  ++ repeat Byte.x00 4 ++ le_split 8 80
  ++ map byte.of_Z [1; 2; 3; 4; 5; 6; 7; 8; 9; 10; 11; 12; 13; 14; 15; 16].

Definition header_crc_of (magic : Z) : Z :=
  crc32 (firstn 64 (image_with magic 0)).

Definition plain_image : list byte :=
  image_with 0xB007C0DE (header_crc_of 0xB007C0DE).

Definition compressed_image : list byte :=
  image_with 0xC08B8355 (header_crc_of 0xC08B8355).

(** A plain image whose stored headerCrc is off by one bit. *)
Definition corrupt_image : list byte :=
  image_with 0xB007C0DE (Z.lxor (header_crc_of 0xB007C0DE) 1).

Definition blank : memory := fun _ => Byte.x00.

(** The DDR target address and the address of the scratch header of [cfg]. *)
Definition DDR : Z := 0xA0000000.
Definition scratch : Z := 0x08001000.

(** A medium holding [img] from byte [offs] on. *)
Definition medium_with (offs : Z) (img : list byte) : Z -> byte :=
  store_bytes blank offs img.

Definition board_with (md : Z -> byte) (fails : nat -> bool) (gpt : bool) : Board :=
  mkBoard md 0 fails gpt 2 80 0 [].

Definition never : nat -> bool := fun _ => false.
Definition only (k : nat) : nat -> bool := fun n => Nat.eqb n k.

(** Cold boot: blank memory, a good plain image on the medium at the SPI
    flash offset, no read fails. *)
Definition w_good_spi : World Board :=
  mkWorld blank (board_with (medium_with 0x400 plain_image) never false).

(** The second block read (the copy to DDR) fails, while DDR still holds a
    good plain image from before. *)
Definition w_copy_fails_stale_DDR : World Board :=
  mkWorld (store_bytes blank 0xA0000000 plain_image)
          (board_with (medium_with 0x400 plain_image) (only 1) false).

(** The first block read (the header) fails, while the scratch header
    still holds a good plain header from before; the copy then works. *)
Definition w_header_read_fails_stale_scratch : World Board :=
  mkWorld (store_bytes blank 0x08001000 (firstn 64 plain_image))
          (board_with (medium_with 0 plain_image) (only 0) false).

(** The first block read fails on a cold boot. *)
Definition w_header_read_fails : World Board :=
  mkWorld blank (board_with (medium_with 0 plain_image) (only 0) false).

(** A card without a partition table and a good plain image at offset 0. *)
Definition w_mmc_no_gpt : World Board :=
  mkWorld blank (board_with (medium_with 0 plain_image) never false).

(** A compressed image in the payload, and a decompressor that returns 0. *)
Definition w_payload_compressed_fails : World Board :=
  mkWorld (store_bytes blank 0x20220000 compressed_image)
          (mkBoard blank 0 never false 0 0 0 []).

(** A compressed image in the payload; the decompressor reports 80 bytes. *)
Definition w_payload_compressed : World Board :=
  mkWorld (store_bytes blank 0x20220000 compressed_image)
          (mkBoard blank 0 never false 0 80 0 []).

(** A card with a partition table whose boot partition starts at block 2,
    and a good plain image there. *)
Definition w_mmc_gpt : World Board :=
  mkWorld blank (board_with (medium_with 1024 plain_image) never true).

(** A good plain image in the payload. *)
Definition w_payload_good : World Board :=
  mkWorld (store_bytes blank 0x20220000 plain_image)
          (mkBoard blank 0 never false 0 80 0 []).

(** A plain image in the payload whose stored headerCrc is wrong. *)
Definition w_payload_corrupt : World Board :=
  mkWorld (store_bytes blank 0x20220000 corrupt_image)
          (mkBoard blank 0 never false 0 80 0 []).

End Sample.

(** * Facts *)

(** ** Memory *)

Lemma length_load_bytes (m : memory) (a : Z) (n : nat) :
  List.length (load_bytes m a n) = n.
Proof. unfold load_bytes. now rewrite length_map, length_seq. Qed.

Lemma nth_load_bytes (m : memory) (a : Z) (n i : nat) (d : byte) :
  (i < n)%nat -> nth i (load_bytes m a n) d = m (a + Z.of_nat i).
Proof.
  intros Hi. unfold load_bytes.
  rewrite (nth_indep _ d (m (a + Z.of_nat 0))) by now rewrite length_map, length_seq.
  rewrite (map_nth (fun i => m (a + Z.of_nat i))), seq_nth by assumption.
  reflexivity.
Qed.

Lemma load_bytes_ext (m1 m2 : memory) (a : Z) (n : nat) :
  mem_eq m1 m2 -> load_bytes m1 a n = load_bytes m2 a n.
Proof. intros H. unfold load_bytes. apply map_ext. intros i. apply H. Qed.

Lemma store_bytes_ext (m1 m2 : memory) (a : Z) (bs : list byte) :
  mem_eq m1 m2 -> mem_eq (store_bytes m1 a bs) (store_bytes m2 a bs).
Proof. intros H x. unfold store_bytes. destruct (_ && _); [reflexivity | apply H]. Qed.

Lemma store_bytes_outside (m : memory) (a : Z) (bs : list byte) (x : Z) :
  x < a \/ a + Z.of_nat (List.length bs) <= x -> store_bytes m a bs x = m x.
Proof.
  intros H. unfold store_bytes.
  destruct (a <=? x) eqn:H1, (x <? a + Z.of_nat (List.length bs)) eqn:H2; simpl; try reflexivity.
  apply Z.leb_le in H1. apply Z.ltb_lt in H2. lia.
Qed.

(** Writing back the four bytes that were there, over whatever was written
    at the same place in between, gives the first memory again. *)
Lemma store_u32_restore (m : memory) (a v : Z) :
  mem_eq (store_u32 (store_u32 m a v) a (load_u32 m a)) m.
Proof.
  intros x. unfold store_u32, load_u32.
  replace (le_split 4 (le_combine (load_bytes m a 4))) with (load_bytes m a 4).
  2:{ rewrite <- (length_load_bytes m a 4) at 2. now rewrite split_le_combine. }
  unfold store_bytes at 1. rewrite length_load_bytes.
  destruct (a <=? x) eqn:H1, (x <? a + Z.of_nat 4) eqn:H2; cbn [andb].
  - apply Z.leb_le in H1. apply Z.ltb_lt in H2.
    rewrite nth_load_bytes by lia. f_equal. lia.
  - apply store_bytes_outside. rewrite length_le_split. apply Z.ltb_ge in H2. lia.
  - apply store_bytes_outside. rewrite length_le_split. apply Z.leb_gt in H1. lia.
  - apply store_bytes_outside. rewrite length_le_split. apply Z.leb_gt in H1. lia.
Qed.

Lemma load_bytes_store_bytes (m : memory) (a : Z) (bs : list byte) :
  load_bytes (store_bytes m a bs) a (List.length bs) = bs.
Proof.
  apply nth_ext with (d := Byte.x00) (d' := Byte.x00).
  - apply length_load_bytes.
  - rewrite length_load_bytes. intros i Hi.
    rewrite nth_load_bytes by assumption. unfold store_bytes.
    replace ((a <=? a + Z.of_nat i) && (a + Z.of_nat i <? a + Z.of_nat (List.length bs)))
      with true.
    + f_equal. lia.
    + symmetry. apply andb_true_iff. split; [apply Z.leb_le | apply Z.ltb_lt]; lia.
Qed.

(** A field that was stored reads back as the value stored, as a [uint32_t]. *)
Lemma load_u32_store_u32 (m : memory) (a v : Z) :
  load_u32 (store_u32 m a v) a = u32 v.
Proof.
  unfold load_u32, store_u32.
  rewrite <- (length_le_split 4 v) at 2.
  rewrite load_bytes_store_bytes, le_combine_split. reflexivity.
Qed.

Lemma load_u32_ext (m1 m2 : memory) (a : Z) :
  mem_eq m1 m2 -> load_u32 m1 a = load_u32 m2 a.
Proof. intros H. unfold load_u32. now rewrite (load_bytes_ext m1 m2). Qed.

Lemma store_u32_ext (m1 m2 : memory) (a v : Z) :
  mem_eq m1 m2 -> mem_eq (store_u32 m1 a v) (store_u32 m2 a v).
Proof. apply store_bytes_ext. Qed.

(** ** Running monadic code in proofs *)

Ltac unfold_monad :=
  cbv [mHSS_DEBUG_PRINTF load32 load64 store32 bind ret get_mem put_mem emit call
       result_of world_of events_of] in *.

(** Case analysis on the innermost scrutinee of the goal. *)
Ltac break_innermost :=
  match goal with
  | |- context [match ?x with _ => _ end] =>
      lazymatch x with
      | context [match _ with _ => _ end] => fail
      | negb ?b => destruct b eqn:?
      | _ => destruct x eqn:?
      end
  end.

Ltac run := unfold_monad; repeat (break_innermost; cbn [negb fst snd] in *).

Section BootInitFacts.

Context {Ext : Type} {E : Externals Ext} (cfg : Config).

(** ** validateCrc_ and verifyMagic_ *)

Lemma validateCrc_result (p : Z) (w : World Ext) :
  result_of (validateCrc_ cfg p w) = header_crc_matches cfg (mem w) p.
Proof.
  unfold validateCrc_, header_crc_matches, header_bytes_crc_zeroed,
    CRC32_calculate_at, load32, store32, mHSS_DEBUG_PRINTF, bind, get_mem, put_mem,
    emit, ret, result_of.
  simpl. destruct (_ =? _); reflexivity.
Qed.

Lemma validateCrc_world (p : Z) (w : World Ext) :
  mem_eq (mem (world_of (validateCrc_ cfg p w))) (mem w) /\
  ext (world_of (validateCrc_ cfg p w)) = ext w.
Proof.
  unfold validateCrc_, CRC32_calculate_at, load32, store32, mHSS_DEBUG_PRINTF, bind,
    get_mem, put_mem, emit, ret, world_of.
  simpl. destruct (_ =? _); simpl; split; try reflexivity; apply store_u32_restore.
Qed.

Lemma header_crc_matches_ext (m1 m2 : memory) (p : Z) :
  mem_eq m1 m2 -> header_crc_matches cfg m1 p = header_crc_matches cfg m2 p.
Proof.
  intros H. unfold header_crc_matches, header_bytes_crc_zeroed.
  rewrite (load_u32_ext m1 m2) by assumption.
  rewrite (load_bytes_ext (store_u32 m1 _ 0) (store_u32 m2 _ 0))
    by now apply store_u32_ext.
  reflexivity.
Qed.

(** ** The source readers *)

Ltac unfold_readers :=
  unfold call_getBootImageFunction, getBootImageFromSpiFlash_, getBootImageFromMMC_,
    getBootImageFromMMC_GPT_lookup, getBootImageFromMMC_read, getBootImageFromQSPI_,
    getBootImageFromPayload_, copyBootImageToDDR_, printBootImageDetails_,
    spiFlashReadBlock_, HSS_MMC_ReadBlock_, HSS_QSPI_ReadBlock_, verifyMagic_.

Lemma reader_events (f : HSS_GetBootImageFnPtr_t) (pp : Z) (w : World Ext) :
  forallb reader_event (events_of (call_getBootImageFunction cfg f pp w)) = true.
Proof.
  destruct f; unfold_readers; run; reflexivity.
Qed.

Lemma validateCrc_events (p : Z) (w : World Ext) :
  exists crc,
    events_of (validateCrc_ cfg p w) =
      Call_CRC32_calculate p (sizeof_HSS_BootImage cfg) crc ::
      (if result_of (validateCrc_ cfg p w) then []
       else [Printf LOG_ERROR
               "Checked HSS_BootImage header CRC (%p->%p): calculated %08x vs expected %08x"
               [Ptr p; Ptr (p + sizeof_HSS_BootImage cfg); Int crc;
                Int (load_u32 (mem w) (p + offsetof_headerCrc cfg))]]).
Proof.
  unfold validateCrc_, CRC32_calculate_at. unfold_monad.
  eexists. destruct (_ =? _); reflexivity.
Qed.

(** The validation block leaves through one of its four exits. *)
Lemma HSS_BootInit_validate_exit (r : bool) (p : Z) (d : bool) (w : World Ext) :
  validate_exit cfg r p d w (HSS_BootInit_validate cfg r p d w).
Proof.
  unfold HSS_BootInit_validate.
  destruct (p =? NULL) eqn:Hp.
  { apply Z.eqb_eq in Hp. unfold_monad. now apply exit_null. }
  apply Z.eqb_neq in Hp.
  unfold_monad.
  destruct (load_u32 (mem w) (p + offsetof_magic cfg) =? mHSS_BOOT_MAGIC cfg) eqn:Hm;
    cbn [negb].
  2:{ apply Z.eqb_neq in Hm. now apply exit_magic. }
  apply Z.eqb_eq in Hm.
  destruct (validateCrc_ cfg p w) as [[ok w1] evc] eqn:Hv.
  destruct ok.
  - destruct (HSS_Register_Boot_Image p w1) as [u w2] eqn:Hr.
    destruct (CONFIG_SERVICE_BOOT_CUSTOM_FLOW cfg) eqn:Hc.
    + destruct (HSS_Boot_Custom w2) as [res w3] eqn:Hb.
      cbn [app]. eapply exit_registered; eauto. rewrite Hc. auto.
    + destruct (HSS_Boot_RestartCore (HSS_HART_ALL cfg) w2) as [rc w3] eqn:Hb.
      destruct (rc =? IPI_SUCCESS cfg) eqn:Hrc; cbn [app];
        (eapply exit_registered; eauto; rewrite Hc; exists rc;
         repeat split; [exact Hb | now rewrite Hrc]).
  - cbn [app]. eapply exit_crc_failed; eauto.
Qed.

(** C8. [verifyMagic_] returns true exactly when the magic of the header is
    the plain or the compressed sentinel, and it leaves the world (memory
    included) as it found it. *)
Theorem verifyMagic_iff_sentinel (p : Z) (w : World Ext) :
  (result_of (verifyMagic_ cfg p w) = true <->
     magic_at cfg (mem w) p = mHSS_BOOT_MAGIC cfg \/
     magic_at cfg (mem w) p = mHSS_COMPRESSED_MAGIC cfg)
  /\ world_of (verifyMagic_ cfg p w) = w.
Proof.
  unfold verifyMagic_, magic_at. unfold_monad.
  destruct (load_u32 (mem w) (p + offsetof_magic cfg) =? mHSS_BOOT_MAGIC cfg) eqn:H1;
  destruct (load_u32 (mem w) (p + offsetof_magic cfg) =? mHSS_COMPRESSED_MAGIC cfg) eqn:H2;
    cbn [orb fst snd]; (split; [| reflexivity]);
    rewrite ?Z.eqb_eq, ?Z.eqb_neq in *; intuition congruence.
Qed.

(** C4. A call of [validateCrc_] leaves the headerCrc field as it was before
    the call, whether the check passes or fails, and changes no other byte
    of memory (so no other field of the header) nor anything else. *)
Theorem validateCrc_restores_header (p : Z) (w : World Ext) :
  let w' := world_of (validateCrc_ cfg p w) in
  load_u32 (mem w') (p + offsetof_headerCrc cfg)
    = load_u32 (mem w) (p + offsetof_headerCrc cfg)
  /\ (forall a, mem w' a = mem w a)
  /\ ext w' = ext w.
Proof.
  destruct (validateCrc_world p w) as [Hm He].
  cbv zeta. repeat split.
  - now apply load_u32_ext.
  - exact Hm.
  - exact He.
Qed.

(** C9. Two calls of [validateCrc_] on the same header, one right after the
    other, return the same boolean. *)
Theorem validateCrc_twice_same (p : Z) (w : World Ext) :
  result_of (validateCrc_ cfg p (world_of (validateCrc_ cfg p w)))
    = result_of (validateCrc_ cfg p w).
Proof.
  rewrite !validateCrc_result.
  apply header_crc_matches_ext.
  apply validateCrc_world.
Qed.

(** ** The acquisition stage *)

Lemma reader_event_acquire (e : event) : reader_event e = true -> acquire_event e = true.
Proof. destruct e; simpl; congruence. Qed.

Lemma decompress_events (r : bool) (p : Z) (d : bool) (w : World Ext) :
  forallb acquire_event (events_of (HSS_BootInit_decompress cfg r p d w)) = true.
Proof.
  unfold HSS_BootInit_decompress, HSS_BootInit_decompress_to_DDR.
  destruct r; run; try reflexivity; discriminate.
Qed.

Lemma acquire_split (f : HSS_GetBootImageFnPtr_t) (pp : Z) (d : bool) (w : World Ext) :
  exists r0 p0 w0 ev0,
    call_getBootImageFunction cfg f pp w = (r0, p0, w0, ev0) /\
    HSS_BootInit_acquire cfg f pp d w =
      (result_of (HSS_BootInit_decompress cfg r0 p0 d w0),
       world_of (HSS_BootInit_decompress cfg r0 p0 d w0),
       ev0 ++ events_of (HSS_BootInit_decompress cfg r0 p0 d w0)).
Proof.
  unfold HSS_BootInit_acquire, bind.
  destruct (call_getBootImageFunction cfg f pp w) as [[[r0 p0] w0] ev0].
  exists r0, p0, w0, ev0. split; [reflexivity |].
  destruct (HSS_BootInit_decompress cfg r0 p0 d w0) as [[x w1] ev1]. reflexivity.
Qed.

Lemma acquire_events (f : HSS_GetBootImageFnPtr_t) (pp : Z) (d : bool) (w : World Ext) :
  forallb acquire_event (events_of (HSS_BootInit_acquire cfg f pp d w)) = true.
Proof.
  destruct (acquire_split f pp d w) as (r0 & p0 & w0 & ev0 & Hr & Ha).
  rewrite Ha. unfold events_of at 1. cbn [snd].
  rewrite forallb_app, decompress_events, andb_true_r.
  pose proof (reader_events f pp w) as Hre. rewrite Hr in Hre.
  unfold events_of in Hre. cbn [snd] in Hre.
  rewrite forallb_forall in *. intros e He. apply reader_event_acquire. auto.
Qed.

(** The run of [HSS_BootInit] when the boot service is configured: the
    opening print, the acquisition stage, then the validation block. *)
Lemma HSS_BootInit_run (f : HSS_GetBootImageFnPtr_t) (w : World Ext) :
  CONFIG_SERVICE_BOOT cfg = true ->
  exists r p d w1 pre,
    HSS_BootInit_acquire cfg f NULL false w = (r, p, d, w1, pre) /\
    HSS_BootInit cfg f w =
      (result_of (HSS_BootInit_validate cfg r p d w1),
       world_of (HSS_BootInit_validate cfg r p d w1),
       Printf LOG_NORMAL "Initializing Boot Image.." [] ::
         pre ++ events_of (HSS_BootInit_validate cfg r p d w1)).
Proof.
  intros Hb. unfold HSS_BootInit. rewrite Hb. unfold_monad.
  destruct (HSS_BootInit_acquire cfg f NULL false w) as [[[[r p] d] w1] pre].
  exists r, p, d, w1, pre. split; [reflexivity |].
  destruct (HSS_BootInit_validate cfg r p d w1) as [[x w2] ev2]. reflexivity.
Qed.

Lemma HSS_BootInit_disabled (f : HSS_GetBootImageFnPtr_t) (w : World Ext) :
  CONFIG_SERVICE_BOOT cfg = false ->
  HSS_BootInit cfg f w = (false, w, [Printf LOG_NORMAL "Initializing Boot Image.." []]).
Proof. intros Hb. unfold HSS_BootInit. rewrite Hb. reflexivity. Qed.

Lemma existsb_false {A : Type} (P : A -> bool) (l : list A) :
  existsb P l = false <-> forall x, In x l -> P x = false.
Proof.
  induction l as [| a l IH]; simpl.
  - split; [intros _ x [] | reflexivity].
  - rewrite orb_false_iff, IH. split.
    + intros [Ha Hl] x [<- | Hx]; auto.
    + intros H. split; [apply H; now left | intros x Hx; apply H; now right].
Qed.

Lemma validateCrc_event_kinds (p : Z) (w : World Ext) (e : event) :
  In e (events_of (validateCrc_ cfg p w)) ->
  is_crc32 e = true \/ exists fmt args, e = Printf LOG_ERROR fmt args /\ fmt <> diag_crc_fmt.
Proof.
  destruct (validateCrc_events p w) as [crc ->].
  destruct (result_of (validateCrc_ cfg p w)); simpl; intros H.
  - destruct H as [<- | []]. now left.
  - destruct H as [<- | [<- | []]]; [now left | right].
    do 2 eexists. split; [reflexivity | discriminate].
Qed.

Lemma validateCrc_events_not (p : Z) (w : World Ext) (e : event) :
  In e (events_of (validateCrc_ cfg p w)) ->
  is_register e = false /\ is_decompress e = false /\
  (forall c, e <> Printf LOG_NORMAL diag_crc_fmt [Int c]).
Proof.
  intros H. apply validateCrc_event_kinds in H.
  destruct H as [H | (fmt & args & -> & Hf)].
  - destruct e; try discriminate. repeat split. discriminate.
  - repeat split. discriminate.
Qed.

Lemma acquire_events_not (f : HSS_GetBootImageFnPtr_t) (pp : Z) (d : bool)
    (w : World Ext) (e : event) :
  In e (events_of (HSS_BootInit_acquire cfg f pp d w)) ->
  is_register e = false /\ is_crc32 e = false /\
  (forall lvl args, e <> Printf lvl diag_crc_fmt args) /\
  (forall lvl args, e <> Printf lvl cannot_decompress_fmt args).
Proof.
  intros H.
  pose proof (acquire_events f pp d w) as Ha.
  rewrite forallb_forall in Ha. specialize (Ha e H).
  destruct e; try discriminate; repeat split; try discriminate.
  - intros lvl' args' Heq. inversion Heq; subst.
    cbn -[String.eqb] in Ha. now rewrite String.eqb_refl in Ha.
  - intros lvl' args' Heq. inversion Heq; subst.
    cbn -[String.eqb] in Ha. rewrite String.eqb_refl in Ha.
    now rewrite andb_false_r in Ha.
Qed.

(** C1. [HSS_Register_Boot_Image] is only ever called with a validated
    pointer: whenever a run of [HSS_BootInit] calls it with [q], then [q] is
    the image pointer the acquisition stage ended with, it is not null, the
    magic of the header at [q] is [mHSS_BOOT_MAGIC], and [validateCrc_] has
    returned true on that header, its events standing in the trace before
    the registration, which is the only one of the run. *)
Theorem register_only_validated (f : HSS_GetBootImageFnPtr_t) (w : World Ext) (q : Z) :
  In (Call_Register_Boot_Image q) (events_of (HSS_BootInit cfg f w)) ->
  exists r d w1 pre w2 evc before after,
    HSS_BootInit_acquire cfg f NULL false w = (r, q, d, w1, pre) /\
    q <> NULL /\
    magic_at cfg (mem w1) q = mHSS_BOOT_MAGIC cfg /\
    validateCrc_ cfg q w1 = (true, w2, evc) /\
    before = Printf LOG_NORMAL "Initializing Boot Image.." [] :: pre ++ evc ++
             [Printf LOG_NORMAL "%s boot image passed CRC"
                [Str (if d then "decompressed" else EmptyString)];
              Printf LOG_NORMAL fmt_set_name [Ptr (q + offsetof_set_name cfg)]] /\
    events_of (HSS_BootInit cfg f w) = before ++ Call_Register_Boot_Image q :: after /\
    existsb is_register before = false /\
    existsb is_register after = false.
Proof.
  intros Hin.
  destruct (CONFIG_SERVICE_BOOT cfg) eqn:Hb.
  2:{ rewrite (HSS_BootInit_disabled f w Hb) in Hin.
      destruct Hin as [Hin | []]. discriminate. }
  destruct (HSS_BootInit_run f w Hb) as (r & p & d & w1 & pre & Hacq & Hrun).
  rewrite Hrun in *. clear Hrun. unfold events_of at 1 in Hin. cbn [snd] in Hin.
  pose proof (HSS_BootInit_validate_exit r p d w1) as Hx.
  destruct Hin as [Hin | Hin]; [discriminate |].
  apply in_app_or in Hin. destruct Hin as [Hin | Hin].
  { assert (Hpre : pre = events_of (HSS_BootInit_acquire cfg f NULL false w))
      by now rewrite Hacq.
    rewrite Hpre in Hin. apply acquire_events_not in Hin. now destruct Hin. }
  assert (Hpre : existsb is_register pre = false).
  { apply existsb_false. intros e He.
    replace pre with (events_of (HSS_BootInit_acquire cfg f NULL false w)) in He
      by now rewrite Hacq.
    now apply acquire_events_not in He. }
  destruct (HSS_BootInit_validate cfg r p d w1) as [[res w3] evv] eqn:Hv.
  unfold events_of in Hin |- *. cbn [snd] in Hin |- *.
  inversion Hx as [Hp | Hp Hm | w2 evc u w2' res' w3' launch Hp Hm Hc Hr Hl
                   | w2 evc len crc Hp Hm Hc]; subst.
  - destruct Hin as [Hin | []]. discriminate.
  - destruct Hin as [Hin | []]. discriminate.
  - assert (Hevc : existsb is_register evc = false).
    { apply existsb_false. intros e He.
      replace evc with (events_of (validateCrc_ cfg p w1)) in He by now rewrite Hc.
      now apply validateCrc_events_not in He. }
    assert (Hlaunch : is_register launch = false).
    { destruct (CONFIG_SERVICE_BOOT_CUSTOM_FLOW cfg).
      - now destruct Hl as [_ ->].
      - now destruct Hl as (rc & _ & _ & ->). }
    assert (q = p).
    { apply in_app_or in Hin. destruct Hin as [Hin | Hin].
      - rewrite existsb_false in Hevc. apply Hevc in Hin. discriminate.
      - simpl in Hin.
        destruct Hin as [Hin | [Hin | [Hin | [Hin | [Hin | []]]]]];
          try discriminate; try congruence.
        rewrite Hin in Hlaunch. discriminate. }
    subst q.
    exists r, d, w1, pre, w2, evc. eexists. eexists.
    split; [exact Hacq |]. split; [exact Hp |]. split; [exact Hm |].
    split; [exact Hc |]. split; [reflexivity |].
    split.
    { cbn [app]. f_equal. rewrite <- !app_assoc. reflexivity. }
    split.
    { cbn [existsb is_register orb]. rewrite !existsb_app, Hpre, Hevc. reflexivity. }
    cbn [existsb is_register orb]. now rewrite Hlaunch.
  - exfalso. apply in_app_or in Hin. destruct Hin as [Hin | Hin].
    + replace evc with (events_of (validateCrc_ cfg p w1)) in Hin by now rewrite Hc.
      now apply validateCrc_events_not in Hin.
    + simpl in Hin. destruct Hin as [Hin | [Hin | [Hin | []]]]; discriminate.
Qed.

(** ** The decompression block *)

Lemma decompress_to_DDR_run (p : Z) (w : World Ext) :
  exists n w',
    HSS_Decompress p (CONFIG_SERVICE_BOOT_DDR_TARGET_ADDR cfg) w = (n, w') /\
    HSS_BootInit_decompress_to_DDR cfg p w =
      ((if n =? 0 then NULL else CONFIG_SERVICE_BOOT_DDR_TARGET_ADDR cfg), w',
       [Printf LOG_NORMAL "Preparing to decompress to DDR..." [];
        Call_Decompress p (CONFIG_SERVICE_BOOT_DDR_TARGET_ADDR cfg) n;
        Printf LOG_NORMAL "decompressed %d bytes..." [Int n]]).
Proof.
  unfold HSS_BootInit_decompress_to_DDR. unfold_monad.
  destruct (HSS_Decompress p (CONFIG_SERVICE_BOOT_DDR_TARGET_ADDR cfg) w) as [n w'].
  exists n, w'. split; [reflexivity |]. destruct (n =? 0); reflexivity.
Qed.

(** The block is skipped, or, under its guard, it stops on a null pointer or
    runs the decompressor. *)
Lemma decompress_cases (r : bool) (p : Z) (d : bool) (w : World Ext) :
  (HSS_BootInit_decompress cfg r p d w = (r, p, d, w, []) /\
   (CONFIG_COMPRESSION cfg = false \/ r = false \/
    magic_at cfg (mem w) p <> mHSS_COMPRESSED_MAGIC cfg))
  \/
  (CONFIG_COMPRESSION cfg = true /\ r = true /\
   magic_at cfg (mem w) p = mHSS_COMPRESSED_MAGIC cfg /\
   ((p = NULL /\
     HSS_BootInit_decompress cfg r p d w =
       (false, p, true, w, [Printf LOG_ERROR "Boot Image NULL, ignoring" []]))
    \/
    (p <> NULL /\
     exists p1 w1 evs,
       HSS_BootInit_decompress_to_DDR cfg p w = (p1, w1, evs) /\
       HSS_BootInit_decompress cfg r p d w = (true, p1, true, w1, evs)))).
Proof.
  unfold HSS_BootInit_decompress, magic_at.
  destruct (CONFIG_COMPRESSION cfg); [| now left; auto].
  destruct r; [| now left; auto].
  unfold_monad. cbn [andb negb].
  destruct (load_u32 (mem w) (p + offsetof_magic cfg) =? mHSS_COMPRESSED_MAGIC cfg) eqn:Hm.
  2:{ apply Z.eqb_neq in Hm. left. auto. }
  apply Z.eqb_eq in Hm. right. repeat split; try assumption.
  destruct (p =? NULL) eqn:Hp.
  - apply Z.eqb_eq in Hp. left. auto.
  - apply Z.eqb_neq in Hp. right. split; [assumption |].
    destruct (HSS_BootInit_decompress_to_DDR cfg p w) as [[p1 w1] evs].
    exists p1, w1, evs. split; [reflexivity |]. now rewrite app_nil_r.
Qed.

Lemma validate_events_not (r : bool) (p : Z) (d : bool) (w : World Ext) (e : event) :
  In e (events_of (HSS_BootInit_validate cfg r p d w)) ->
  is_decompress e = false /\ (forall lvl args, e <> Printf lvl cannot_decompress_fmt args).
Proof.
  pose proof (HSS_BootInit_validate_exit r p d w) as Hx.
  destruct (HSS_BootInit_validate cfg r p d w) as [[res w3] evv].
  unfold events_of. cbn [snd].
  assert (Hcrc : forall w1 evc b, validateCrc_ cfg p w = (b, w1, evc) -> In e evc ->
            is_decompress e = false /\
            (forall lvl args, e <> Printf lvl cannot_decompress_fmt args)).
  { intros w1 evc b Hc He.
    replace evc with (events_of (validateCrc_ cfg p w)) in He by now rewrite Hc.
    destruct (validateCrc_event_kinds _ _ _ He) as [H | (fmt & args & -> & _)].
    - destruct e; try discriminate. split; [reflexivity | discriminate].
    - split; [reflexivity |]. intros lvl args' Heq. inversion Heq; subst.
      destruct (validateCrc_events p w) as [crc Hev]. rewrite Hev in He.
      destruct (result_of (validateCrc_ cfg p w)); simpl in He;
        repeat (destruct He as [He | He]; try discriminate); contradiction. }
  inversion Hx as [Hp | Hp Hm | w2 evc u w2' res' w3' launch Hp Hm Hc Hr Hl
                   | w2 evc len crc Hp Hm Hc]; subst; intros Hin.
  - destruct Hin as [<- | []]. split; [reflexivity | discriminate].
  - destruct Hin as [<- | []]. split; [reflexivity | discriminate].
  - apply in_app_or in Hin. destruct Hin as [Hin | Hin]; [eauto |].
    simpl in Hin.
    destruct Hin as [<- | [<- | [<- | [<- | [<- | []]]]]];
      try (split; [reflexivity | discriminate]).
    destruct (CONFIG_SERVICE_BOOT_CUSTOM_FLOW cfg).
    + destruct Hl as [_ ->]. split; [reflexivity | discriminate].
    + destruct Hl as (rc & _ & _ & ->). split; [reflexivity | discriminate].
  - apply in_app_or in Hin. destruct Hin as [Hin | Hin]; [eauto |].
    simpl in Hin.
    destruct Hin as [<- | [<- | [<- | []]]]; split; try reflexivity; discriminate.
Qed.

(** A reader that returns true has stored a pointer, and the places the
    readers point to are not the null address. *)
Lemma reader_true_nonnull (f : HSS_GetBootImageFnPtr_t) (pp : Z) (w : World Ext) :
  CONFIG_SERVICE_BOOT_DDR_TARGET_ADDR cfg <> NULL ->
  QSPI_BASE cfg <> NULL ->
  _payload_start cfg <> NULL ->
  fst (result_of (call_getBootImageFunction cfg f pp w)) = true ->
  snd (result_of (call_getBootImageFunction cfg f pp w)) <> NULL.
Proof.
  intros Hd Hq Hp.
  destruct f; unfold_readers; run; cbn [fst snd]; intros Hr;
    try assumption; discriminate.
Qed.

Lemma reader_events_no_decompress (f : HSS_GetBootImageFnPtr_t) (pp : Z)
    (w : World Ext) (e : event) :
  In e (events_of (call_getBootImageFunction cfg f pp w)) -> is_decompress e = false.
Proof.
  intros H. pose proof (reader_events f pp w) as Hr.
  rewrite forallb_forall in Hr. specialize (Hr e H). now destruct e.
Qed.

(** C7. Decompression gating.  With [r0], [p0], [w0] the result, the pointer
    and the world the active reader leaves: [HSS_Decompress] is called in a
    run of [HSS_BootInit] only when the reader returned true and the magic of
    the acquired header is the compressed sentinel, and then on that header;
    an acquired header with the plain magic never has it called; and when it
    is called and returns 0, the image pointer becomes null, nothing is
    registered and [HSS_BootInit] returns false. *)
Theorem decompress_gating (f : HSS_GetBootImageFnPtr_t) (w : World Ext)
    (Hsentinels : mHSS_BOOT_MAGIC cfg <> mHSS_COMPRESSED_MAGIC cfg) :
  let acq := call_getBootImageFunction cfg f NULL w in
  let r0 := fst (result_of acq) in
  let p0 := snd (result_of acq) in
  let w0 := world_of acq in
  let evs := events_of (HSS_BootInit cfg f w) in
  (forall pIn pOut n, In (Call_Decompress pIn pOut n) evs ->
     CONFIG_COMPRESSION cfg = true /\ r0 = true /\
     magic_at cfg (mem w0) p0 = mHSS_COMPRESSED_MAGIC cfg /\
     pIn = p0 /\ pOut = CONFIG_SERVICE_BOOT_DDR_TARGET_ADDR cfg)
  /\ (magic_at cfg (mem w0) p0 = mHSS_BOOT_MAGIC cfg -> existsb is_decompress evs = false)
  /\ (forall pIn pOut, In (Call_Decompress pIn pOut 0) evs ->
        snd (fst (result_of (HSS_BootInit_acquire cfg f NULL false w))) = NULL /\
        result_of (HSS_BootInit cfg f w) = false /\
        existsb is_register evs = false).
Proof.
  cbv zeta.
  (* where a call of the decompressor can come from *)
  assert (Hfrom : forall pIn pOut n,
    In (Call_Decompress pIn pOut n) (events_of (HSS_BootInit cfg f w)) ->
    let acq := call_getBootImageFunction cfg f NULL w in
    CONFIG_SERVICE_BOOT cfg = true /\
    CONFIG_COMPRESSION cfg = true /\ fst (result_of acq) = true /\
    magic_at cfg (mem (world_of acq)) (snd (result_of acq)) = mHSS_COMPRESSED_MAGIC cfg /\
    pIn = snd (result_of acq) /\ pOut = CONFIG_SERVICE_BOOT_DDR_TARGET_ADDR cfg /\
    exists w1,
      HSS_Decompress pIn pOut (world_of acq) = (n, w1) /\
      result_of (HSS_BootInit_acquire cfg f NULL false w) =
        (true, (if n =? 0 then NULL else CONFIG_SERVICE_BOOT_DDR_TARGET_ADDR cfg), true)).
  { intros pIn pOut n Hin. cbv zeta.
    destruct (CONFIG_SERVICE_BOOT cfg) eqn:Hb.
    2:{ rewrite (HSS_BootInit_disabled f w Hb) in Hin.
        destruct Hin as [Hin | []]. discriminate. }
    destruct (HSS_BootInit_run f w Hb) as (r & p & d & w1 & pre & Hacq & Hrun).
    rewrite Hrun in Hin. unfold events_of at 1 in Hin. cbn [snd] in Hin.
    destruct Hin as [Hin | Hin]; [discriminate |].
    apply in_app_or in Hin. destruct Hin as [Hin | Hin].
    2:{ apply validate_events_not in Hin. destruct Hin. discriminate. }
    destruct (acquire_split f NULL false w) as (r0 & p0 & w0 & ev0 & Hr & Ha).
    rewrite Ha in Hacq |- *. rewrite Hr. unfold result_of, world_of. cbn [fst snd].
    injection Hacq as Hres Hw Hpre. subst pre.
    apply in_app_or in Hin. destruct Hin as [Hin | Hin].
    { replace ev0 with (events_of (call_getBootImageFunction cfg f NULL w)) in Hin
        by now rewrite Hr.
      apply reader_events_no_decompress in Hin. discriminate. }
    destruct (decompress_cases r0 p0 false w0)
      as [[Hd _] | (Hc & Hr0 & Hm & [[Hp Hd] | (Hp & p1 & w2 & evs & Hto & Hd)])];
      rewrite Hd in Hin; unfold events_of in Hin; cbn [snd] in Hin.
    - contradiction.
    - destruct Hin as [Hin | []]. discriminate.
    - destruct (decompress_to_DDR_run p0 w0) as (n' & w' & Hcall & Hrun').
      rewrite Hrun' in Hto. injection Hto as Hp1 Hw2 Hevs. subst evs.
      destruct Hin as [Hin | [Hin | [Hin | []]]]; try discriminate.
      injection Hin as H1 H2 H3. subst pIn pOut n'.
      repeat split; try assumption.
      exists w'. split; [assumption |]. rewrite Hd. unfold result_of. cbn [fst].
      now subst p1. }
  split; [| split].
  - intros pIn pOut n Hin. apply Hfrom in Hin. cbv zeta in Hin. tauto.
  - intros Hplain. apply existsb_false. intros e He.
    destruct e; try reflexivity.
    apply Hfrom in He. cbv zeta in He. destruct He as (_ & _ & _ & Hm & _).
    congruence.
  - intros pIn pOut Hin. apply Hfrom in Hin. cbv zeta in Hin.
    destruct Hin as (Hb & _ & _ & _ & _ & _ & w1 & _ & Hres).
    cbn [Z.eqb] in Hres.
    destruct (HSS_BootInit_run f w Hb) as (r & p & d & w2 & pre & Hacq & Hrun).
    rewrite Hacq in Hres. unfold result_of in Hres. cbn [fst] in Hres.
    injection Hres as -> -> ->.
    rewrite Hrun, Hacq.
    unfold HSS_BootInit_validate. cbn [Z.eqb NULL]. unfold_monad. cbn [fst snd].
    repeat split.
    apply existsb_false. intros e [<- | He]; [reflexivity |].
    apply in_app_or in He. destruct He as [He | [<- | []]]; [| reflexivity].
    replace pre with (events_of (HSS_BootInit_acquire cfg f NULL false w)) in He
      by now rewrite Hacq.
    now apply acquire_events_not in He.
Qed.

(** C10. Under the guard of the decompression block (the reader returned
    true and the magic read through the pointer is the compressed sentinel)
    neither inner error branch is taken: [result] is true and the pointer is
    not null, since every reader that returns true has stored a non-null
    pointer, so the block runs the decompressor; and no run of
    [HSS_BootInit] prints the message of the first error branch. *)
Theorem decompress_error_branches_dead (f : HSS_GetBootImageFnPtr_t) (pp : Z)
    (w : World Ext)
    (Hddr : CONFIG_SERVICE_BOOT_DDR_TARGET_ADDR cfg <> NULL)
    (Hqspi : QSPI_BASE cfg <> NULL)
    (Hpayload : _payload_start cfg <> NULL) :
  let acq := call_getBootImageFunction cfg f pp w in
  let r0 := fst (result_of acq) in
  let p0 := snd (result_of acq) in
  let w0 := world_of acq in
  (r0 = true -> p0 <> NULL)
  /\ (forall d, CONFIG_COMPRESSION cfg = true -> r0 = true ->
        magic_at cfg (mem w0) p0 = mHSS_COMPRESSED_MAGIC cfg ->
        negb r0 = false /\ (p0 =? NULL) = false /\
        exists p1 w1 evs,
          HSS_BootInit_decompress_to_DDR cfg p0 w0 = (p1, w1, evs) /\
          HSS_BootInit_decompress cfg r0 p0 d w0 = (true, p1, true, w1, evs))
  /\ (forall lvl args,
        ~ In (Printf lvl cannot_decompress_fmt args) (events_of (HSS_BootInit cfg f w))).
Proof.
  cbv zeta.
  pose proof (reader_true_nonnull f pp w Hddr Hqspi Hpayload) as Hnn.
  split; [exact Hnn | split].
  - intros d Hc Hr Hm. specialize (Hnn Hr).
    split; [now rewrite Hr |]. split; [now apply Z.eqb_neq |].
    destruct (decompress_cases (fst (result_of (call_getBootImageFunction cfg f pp w)))
                (snd (result_of (call_getBootImageFunction cfg f pp w))) d
                (world_of (call_getBootImageFunction cfg f pp w)))
      as [[_ [H | [H | H]]] | (_ & _ & _ & [[Hp _] | (_ & H)])];
      try congruence; contradiction.
  - intros lvl args Hin.
    destruct (CONFIG_SERVICE_BOOT cfg) eqn:Hb.
    2:{ rewrite (HSS_BootInit_disabled f w Hb) in Hin.
        destruct Hin as [Hin | []]. discriminate. }
    destruct (HSS_BootInit_run f w Hb) as (r & p & d & w1 & pre & Hacq & Hrun).
    rewrite Hrun in Hin. unfold events_of at 1 in Hin. cbn [snd] in Hin.
    destruct Hin as [Hin | Hin]; [discriminate |].
    apply in_app_or in Hin. destruct Hin as [Hin | Hin].
    + replace pre with (events_of (HSS_BootInit_acquire cfg f NULL false w)) in Hin
        by now rewrite Hacq.
      apply acquire_events_not in Hin. destruct Hin as (_ & _ & _ & H).
      now apply (H lvl args).
    + apply validate_events_not in Hin. destruct Hin as [_ H].
      now apply (H lvl args).
Qed.

(** ** Read failures in the block-copy readers *)

(** SPI flash: the reader returns true exactly when both copies from the
    flash report 0 and the magic check on the scratch header passes. *)
Lemma getBootImageFromSpiFlash_true (pp : Z) (w : World Ext) :
  fst (result_of (getBootImageFromSpiFlash_ cfg pp w)) = true <->
  exists w0 wa wb,
    snd (MSS_SYS_select_service_mode w) = w0 /\
    MSS_SYS_spi_copy (bootImage cfg) (u64 (CONFIG_SERVICE_BOOT_SPI_FLASH_OFFSET cfg))
      (sizeof_HSS_BootImage cfg) 3 0 w0 = (0, wa) /\
    (magic_at cfg (mem wa) (bootImage cfg) = mHSS_BOOT_MAGIC cfg \/
     magic_at cfg (mem wa) (bootImage cfg) = mHSS_COMPRESSED_MAGIC cfg) /\
    MSS_SYS_spi_copy (CONFIG_SERVICE_BOOT_DDR_TARGET_ADDR cfg)
      (u64 (CONFIG_SERVICE_BOOT_SPI_FLASH_OFFSET cfg))
      (load_u64 (mem wa) (bootImage cfg + offsetof_bootImageLength cfg)) 3 0 wa = (0, wb).
Proof.
  unfold getBootImageFromSpiFlash_, copyBootImageToDDR_, printBootImageDetails_,
    spiFlashReadBlock_, verifyMagic_, magic_at.
  unfold_monad.
  destruct (MSS_SYS_select_service_mode w) as [u w0]. cbn [snd].
  destruct (MSS_SYS_spi_copy (bootImage cfg) (u64 (CONFIG_SERVICE_BOOT_SPI_FLASH_OFFSET cfg))
              (sizeof_HSS_BootImage cfg) 3 0 w0) as [rc1 wa] eqn:H1.
  destruct (rc1 =? 0) eqn:Hrc1; cbn [negb fst snd];
    rewrite ?Z.eqb_eq, ?Z.eqb_neq in *.
  2:{ split; [discriminate |].
      intros (? & ? & ? & <- & Hx & _). rewrite H1 in Hx. congruence. }
  subst rc1.
  destruct (load_u32 (mem wa) (bootImage cfg + offsetof_magic cfg) =? mHSS_BOOT_MAGIC cfg)
    eqn:Hm1;
  destruct (load_u32 (mem wa) (bootImage cfg + offsetof_magic cfg)
              =? mHSS_COMPRESSED_MAGIC cfg) eqn:Hm2;
    cbn [orb negb fst snd];
    rewrite ?Z.eqb_eq, ?Z.eqb_neq in *.
  4:{ split; [discriminate |].
      intros (? & wa' & wb & <- & Hx & [Hy | Hy] & _); rewrite H1 in Hx;
        injection Hx as <-; contradiction. }
  all: destruct (BOOT_DEBUG cfg); cbn [fst snd];
    destruct (MSS_SYS_spi_copy (CONFIG_SERVICE_BOOT_DDR_TARGET_ADDR cfg)
                (u64 (CONFIG_SERVICE_BOOT_SPI_FLASH_OFFSET cfg))
                (load_u64 (mem wa) (bootImage cfg + offsetof_bootImageLength cfg)) 3 0 wa)
      as [rc2 wb] eqn:H2;
    destruct (rc2 =? 0) eqn:Hrc2; cbn [negb fst snd];
    rewrite ?Z.eqb_eq, ?Z.eqb_neq in *;
    (split;
     [ intros Ht; try discriminate; subst rc2; exists w0, wa, wb; auto
     | intros (? & wa' & wb' & <- & Hx & _ & Hz); rewrite H1 in Hx; injection Hx as <-;
       rewrite H2 in Hz; try congruence ]).
Qed.

(** QSPI without XIP: the result of the header read does not enter the
    result of the reader; only the magic found in the scratch header after
    it and the result of the copy do. *)
Lemma getBootImageFromQSPI_true (pp : Z) (w : World Ext) :
  CONFIG_SERVICE_QSPI_USE_XIP cfg = false ->
  fst (result_of (getBootImageFromQSPI_ cfg pp w)) = true <->
  exists ok1 wa wb,
    HSS_QSPI_ReadBlock (bootImage cfg) 0 (sizeof_HSS_BootImage cfg) w = (ok1, wa) /\
    (magic_at cfg (mem wa) (bootImage cfg) = mHSS_BOOT_MAGIC cfg \/
     magic_at cfg (mem wa) (bootImage cfg) = mHSS_COMPRESSED_MAGIC cfg) /\
    HSS_QSPI_ReadBlock (CONFIG_SERVICE_BOOT_DDR_TARGET_ADDR cfg) 0
      (load_u64 (mem wa) (bootImage cfg + offsetof_bootImageLength cfg)) wa = (true, wb).
Proof.
  intros Hx. unfold getBootImageFromQSPI_, copyBootImageToDDR_, printBootImageDetails_,
    HSS_QSPI_ReadBlock_, verifyMagic_, magic_at.
  rewrite Hx. cbn [negb]. unfold_monad.
  destruct (HSS_QSPI_ReadBlock (bootImage cfg) 0 (sizeof_HSS_BootImage cfg) w)
    as [ok1 wa] eqn:H1.
  destruct (load_u32 (mem wa) (bootImage cfg + offsetof_magic cfg) =? mHSS_BOOT_MAGIC cfg)
    eqn:Hm1;
  destruct (load_u32 (mem wa) (bootImage cfg + offsetof_magic cfg)
              =? mHSS_COMPRESSED_MAGIC cfg) eqn:Hm2;
    cbn [orb negb fst snd];
    rewrite ?Z.eqb_eq, ?Z.eqb_neq in *.
  4:{ split; [discriminate |].
      intros (? & wa' & wb & Hy & [Hz | Hz] & _); injection Hy as <- <-; contradiction. }
  all: destruct (BOOT_DEBUG cfg); cbn [fst snd];
    destruct (HSS_QSPI_ReadBlock (CONFIG_SERVICE_BOOT_DDR_TARGET_ADDR cfg) 0
                (load_u64 (mem wa) (bootImage cfg + offsetof_bootImageLength cfg)) wa)
      as [ok2 wb] eqn:H2;
    destruct ok2; cbn [fst snd];
    (split;
     [ intros Ht; try discriminate; exists ok1, wa, wb; auto
     | intros (? & wa' & wb' & Hy & _ & Hz); injection Hy as <- <-;
       rewrite H2 in Hz; try discriminate; reflexivity ]).
Qed.

(** When the acquisition stage ends with a null pointer, nothing is
    checked and nothing is registered, and the result is false. *)
Lemma null_pointer_stops (r d : bool) (w : World Ext) :
  HSS_BootInit_validate cfg r NULL d w =
    (false, w, [Printf LOG_ERROR "Boot Image NULL, ignoring" []]).
Proof. reflexivity. Qed.

(** A reader that has returned false keeps the decompression block from
    doing anything. *)
Lemma failed_reader_skips_decompress (p : Z) (d : bool) (w : World Ext) :
  HSS_BootInit_decompress cfg false p d w = (false, p, d, w, []).
Proof. unfold HSS_BootInit_decompress. destruct (CONFIG_COMPRESSION cfg); reflexivity. Qed.

(** A reader that fails before it has stored a pointer stops the run:
    no CRC32 is computed, nothing is registered, the result is false. *)
Lemma failed_reader_without_pointer_stops (f : HSS_GetBootImageFnPtr_t) (w : World Ext) :
  result_of (call_getBootImageFunction cfg f NULL w) = (false, NULL) ->
  result_of (HSS_BootInit cfg f w) = false /\
  existsb is_crc32 (events_of (HSS_BootInit cfg f w)) = false /\
  existsb is_register (events_of (HSS_BootInit cfg f w)) = false /\
  existsb is_decompress (events_of (HSS_BootInit cfg f w)) = false.
Proof.
  intros Hr.
  destruct (CONFIG_SERVICE_BOOT cfg) eqn:Hb.
  2:{ rewrite (HSS_BootInit_disabled f w Hb). repeat split. }
  destruct (HSS_BootInit_run f w Hb) as (r & p & d & w1 & pre & Hacq & Hrun).
  destruct (acquire_split f NULL false w) as (r0 & p0 & w0 & ev0 & Hr0 & Ha).
  rewrite Hr0 in Hr. unfold result_of in Hr. cbn [fst] in Hr. injection Hr as -> ->.
  rewrite failed_reader_skips_decompress in Ha.
  unfold result_of, world_of, events_of in Ha. cbn [fst snd] in Ha.
  rewrite Ha in Hacq. injection Hacq as <- <- <- <- <-.
  rewrite Hrun, null_pointer_stops.
  unfold result_of, world_of, events_of. cbn [fst snd].
  assert (Hev : forall e, In e (ev0 ++ []) ->
            is_register e = false /\ is_crc32 e = false /\ is_decompress e = false).
  { intros e He. rewrite app_nil_r in He.
    replace ev0 with (events_of (call_getBootImageFunction cfg f NULL w)) in He
      by now rewrite Hr0.
    pose proof (reader_events_no_decompress f NULL w e He) as Hd.
    pose proof (reader_events f NULL w) as Hre.
    rewrite forallb_forall in Hre. specialize (Hre e He).
    destruct e; try discriminate; auto. }
  split; [reflexivity |].
  repeat split; apply existsb_false; intros e [<- | He]; try reflexivity;
    (apply in_app_or in He; destruct He as [He | [<- | []]]; [| reflexivity]);
    apply Hev in He; tauto.
Qed.

(** MMC and SPI flash: a failed header read makes the reader return false
    and leaves the caller's pointer alone. *)
Lemma getBootImageFromMMC_read_first_fails (srcOffset pp : Z) (w wa : World Ext) :
  HSS_MMC_ReadBlock (bootImage cfg) (u64 (srcOffset * GPT_LBA_SIZE cfg))
    (sizeof_HSS_BootImage cfg) w = (false, wa) ->
  result_of (getBootImageFromMMC_read cfg srcOffset pp w) = (false, pp).
Proof.
  intros H. unfold getBootImageFromMMC_read, HSS_MMC_ReadBlock_. unfold_monad.
  rewrite H. reflexivity.
Qed.

Lemma getBootImageFromSpiFlash_first_fails (pp rc : Z) (w wa : World Ext) :
  MSS_SYS_spi_copy (bootImage cfg) (u64 (CONFIG_SERVICE_BOOT_SPI_FLASH_OFFSET cfg))
    (sizeof_HSS_BootImage cfg) 3 0 (snd (MSS_SYS_select_service_mode w)) = (rc, wa) ->
  rc <> 0 ->
  result_of (getBootImageFromSpiFlash_ cfg pp w) = (false, pp).
Proof.
  intros H Hrc. unfold getBootImageFromSpiFlash_, spiFlashReadBlock_. unfold_monad.
  destruct (MSS_SYS_select_service_mode w) as [u w0]. cbn [snd] in H. rewrite H.
  apply Z.eqb_neq in Hrc. rewrite Hrc. reflexivity.
Qed.

(** ** The MMC reader *)

(** The generic two-step read succeeds exactly when both block reads and
    the magic check on the scratch header do. *)
Lemma getBootImageFromMMC_read_true (srcOffset pp : Z) (w : World Ext) :
  fst (result_of (getBootImageFromMMC_read cfg srcOffset pp w)) = true <->
  exists wa wb,
    HSS_MMC_ReadBlock (bootImage cfg) (u64 (srcOffset * GPT_LBA_SIZE cfg))
      (sizeof_HSS_BootImage cfg) w = (true, wa) /\
    (magic_at cfg (mem wa) (bootImage cfg) = mHSS_BOOT_MAGIC cfg \/
     magic_at cfg (mem wa) (bootImage cfg) = mHSS_COMPRESSED_MAGIC cfg) /\
    HSS_MMC_ReadBlock (CONFIG_SERVICE_BOOT_DDR_TARGET_ADDR cfg)
      (u64 (srcOffset * GPT_LBA_SIZE cfg))
      (load_u64 (mem wa) (bootImage cfg + offsetof_bootImageLength cfg)) wa = (true, wb).
Proof.
  unfold getBootImageFromMMC_read, copyBootImageToDDR_, printBootImageDetails_,
    HSS_MMC_ReadBlock_, verifyMagic_, magic_at.
  unfold_monad.
  destruct (HSS_MMC_ReadBlock (bootImage cfg) (u64 (srcOffset * GPT_LBA_SIZE cfg))
              (sizeof_HSS_BootImage cfg) w) as [ok1 wa] eqn:H1.
  destruct ok1; cbn [negb fst snd].
  2:{ split; [discriminate | intros (? & ? & Hx & _); discriminate]. }
  destruct (load_u32 (mem wa) (bootImage cfg + offsetof_magic cfg) =? mHSS_BOOT_MAGIC cfg)
    eqn:Hm1;
  destruct (load_u32 (mem wa) (bootImage cfg + offsetof_magic cfg)
              =? mHSS_COMPRESSED_MAGIC cfg) eqn:Hm2;
    cbn [orb negb fst snd];
    rewrite ?Z.eqb_eq, ?Z.eqb_neq in *.
  4:{ split; [discriminate |].
      intros (wa' & wb & Hx & [Hy | Hy] & _); injection Hx as <-; contradiction. }
  all: destruct (BOOT_DEBUG cfg); cbn [fst snd];
    destruct (HSS_MMC_ReadBlock (CONFIG_SERVICE_BOOT_DDR_TARGET_ADDR cfg)
                (u64 (srcOffset * GPT_LBA_SIZE cfg))
                (load_u64 (mem wa) (bootImage cfg + offsetof_bootImageLength cfg)) wa)
      as [ok2 wb] eqn:H2;
    destruct ok2; cbn [negb fst snd];
    (split;
     [ intros Ht; try discriminate; exists wa, wb; auto
     | intros (wa' & wb' & Hx & _ & Hz); injection Hx as <-;
       rewrite H2 in Hz; try discriminate; reflexivity ]).
Qed.

(** C6. MMC reader with GPT enabled.  The partition lookup fails exactly
    when one of its steps (header read, header validation, entry validation,
    find by type) reports failure; it then leaves the source offset at 0; and
    the reader is in every case the generic two-step read at the offset the
    lookup left, run in the world the lookup left, the result of the lookup
    being overwritten.  So after a failed lookup the reader returns true
    exactly when the header read at offset 0, the magic check on the header
    found there and the copy succeed. *)
Theorem mmc_lookup_failure_falls_through (pp : Z) (w : World Ext)
    (Hgpt : CONFIG_SERVICE_BOOT_MMC_USE_GPT cfg = true) :
  let lk := getBootImageFromMMC_GPT_lookup 0 w in
  let ok := fst (result_of lk) in
  let srcOffset := snd (result_of lk) in
  let w1 := world_of lk in
  let rd := getBootImageFromMMC_read cfg srcOffset pp w1 in
  (ok = false <-> exists fn, In (Call_GPT fn false) (events_of lk))
  /\ (ok = false -> srcOffset = 0)
  /\ getBootImageFromMMC_ cfg pp w =
       (result_of rd, world_of rd,
        [Printf LOG_NORMAL "Preparing to copy from MMC to DDR ..." [];
         Printf LOG_NORMAL "Attempting to read image header (%d bytes) ..."
           [Int (sizeof_HSS_BootImage cfg)]]
        ++ events_of lk ++ events_of rd)
  /\ (ok = false ->
      (fst (result_of (getBootImageFromMMC_ cfg pp w)) = true <->
       exists wa wb,
         HSS_MMC_ReadBlock (bootImage cfg) 0 (sizeof_HSS_BootImage cfg) w1 = (true, wa) /\
         (magic_at cfg (mem wa) (bootImage cfg) = mHSS_BOOT_MAGIC cfg \/
          magic_at cfg (mem wa) (bootImage cfg) = mHSS_COMPRESSED_MAGIC cfg) /\
         HSS_MMC_ReadBlock (CONFIG_SERVICE_BOOT_DDR_TARGET_ADDR cfg) 0
           (load_u64 (mem wa) (bootImage cfg + offsetof_bootImageLength cfg)) wa
         = (true, wb))).
Proof.
  cbv zeta.
  assert (Hrun : getBootImageFromMMC_ cfg pp w =
    (result_of (getBootImageFromMMC_read cfg
        (snd (result_of (getBootImageFromMMC_GPT_lookup 0 w))) pp
        (world_of (getBootImageFromMMC_GPT_lookup 0 w))),
     world_of (getBootImageFromMMC_read cfg
        (snd (result_of (getBootImageFromMMC_GPT_lookup 0 w))) pp
        (world_of (getBootImageFromMMC_GPT_lookup 0 w))),
     [Printf LOG_NORMAL "Preparing to copy from MMC to DDR ..." [];
      Printf LOG_NORMAL "Attempting to read image header (%d bytes) ..."
        [Int (sizeof_HSS_BootImage cfg)]]
     ++ events_of (getBootImageFromMMC_GPT_lookup 0 w)
     ++ events_of (getBootImageFromMMC_read cfg
        (snd (result_of (getBootImageFromMMC_GPT_lookup 0 w))) pp
        (world_of (getBootImageFromMMC_GPT_lookup 0 w))))).
  { unfold getBootImageFromMMC_. rewrite Hgpt. unfold_monad.
    destruct (getBootImageFromMMC_GPT_lookup 0 w) as [[[ok off] w1] ev1].
    cbn [fst snd].
    destruct (getBootImageFromMMC_read cfg off pp w1) as [[res w2] ev2].
    reflexivity. }
  assert (Hoff : fst (result_of (getBootImageFromMMC_GPT_lookup 0 w)) = false ->
                 snd (result_of (getBootImageFromMMC_GPT_lookup 0 w)) = 0).
  { unfold getBootImageFromMMC_GPT_lookup. run; intros; try reflexivity; discriminate. }
  split; [| split; [exact Hoff | split; [exact Hrun |]]].
  - unfold getBootImageFromMMC_GPT_lookup. run; cbn [app In];
      (split;
       [ intros Hf; try discriminate; eexists; eauto 8
       | intros [fn Hin];
         repeat (destruct Hin as [Hin | Hin]; [try discriminate |]);
         try contradiction; try reflexivity; try congruence ]).
  - intros Hf. rewrite Hrun. unfold result_of at 1. cbn [fst].
    rewrite getBootImageFromMMC_read_true, (Hoff Hf). reflexivity.
Qed.

End BootInitFacts.

(** ** The header check is the only gate *)

Section HeaderGate.

Context {Ext : Type} {E : Externals Ext} (cfg : Config).

Lemma acquire_with_CRC32 (crc' : list byte -> Z) (f : HSS_GetBootImageFnPtr_t)
    (pp : Z) (d : bool) (w : World Ext) :
  HSS_BootInit_acquire (E := with_CRC32 E crc') cfg f pp d w
  = HSS_BootInit_acquire cfg f pp d w.
Proof. reflexivity. Qed.

Lemma validateCrc_with_CRC32 (crc' : list byte -> Z) (p : Z) (w : World Ext) :
  (forall bs, List.length bs = Z.to_nat (sizeof_HSS_BootImage cfg) ->
              crc' bs = CRC32_calculate bs) ->
  validateCrc_ (E := with_CRC32 E crc') cfg p w = validateCrc_ cfg p w.
Proof.
  intros Hcrc. unfold validateCrc_, CRC32_calculate_at. unfold_monad.
  cbn [CRC32_calculate with_CRC32].
  rewrite Hcrc by apply length_load_bytes. reflexivity.
Qed.

Lemma validate_with_CRC32 (crc' : list byte -> Z) (r : bool) (p : Z) (d : bool)
    (w : World Ext) :
  (forall bs, List.length bs = Z.to_nat (sizeof_HSS_BootImage cfg) ->
              crc' bs = CRC32_calculate bs) ->
  let a := HSS_BootInit_validate (E := with_CRC32 E crc') cfg r p d w in
  let b := HSS_BootInit_validate cfg r p d w in
  result_of a = result_of b /\ world_of a = world_of b /\
  filter is_register (events_of a) = filter is_register (events_of b).
Proof.
  intros Hcrc. cbv zeta. unfold HSS_BootInit_validate.
  destruct (p =? NULL); [repeat split |].
  unfold bind at 1 3 5 7 9 11. unfold load32, get_mem, ret, bind.
  destruct (negb (load_u32 (mem w) (p + offsetof_magic cfg) =? mHSS_BOOT_MAGIC cfg));
    [repeat split |].
  rewrite (validateCrc_with_CRC32 crc' p w Hcrc).
  destruct (validateCrc_ cfg p w) as [[ok w1] evc].
  destruct ok; [repeat split |].
  unfold CRC32_calculate_at. unfold_monad. cbn [fst snd app].
  repeat split. rewrite !filter_app. reflexivity.
Qed.

(** C3. [validateCrc_] returns true exactly when the CRC32 of the
    [sizeof(struct HSS_BootImage)] bytes of the header, taken with the
    headerCrc field zeroed, equals the stored headerCrc.  The CRC32 over
    [bootImageLength] bytes is computed and printed by [HSS_BootInit] only
    after [validateCrc_] has failed, and it is no gate: the result then is
    the one the acquisition stage left and nothing is registered, and a CRC32
    primitive that differs from the given one on inputs of any other length
    than the header's leaves the result, the final world and the
    registrations of [HSS_BootInit] the same.  And it is computed and
    printed whenever [validateCrc_] fails: when the acquisition stage ends
    with a non-null pointer to a header with the plain magic on which
    [validateCrc_] returns false, the run ends with the print of the failed
    check, the call of [CRC32_calculate] over the [bootImageLength] bytes of
    the image and the print of its value, with [result] left as it was. *)
Theorem header_crc_only_gate (f : HSS_GetBootImageFnPtr_t) (p : Z) (w : World Ext)
    (crc' : list byte -> Z)
    (Hcrc : forall bs, List.length bs = Z.to_nat (sizeof_HSS_BootImage cfg) ->
                       crc' bs = CRC32_calculate bs) :
  (result_of (validateCrc_ cfg p w) = true <->
     u32 (CRC32_calculate (header_bytes_crc_zeroed cfg (mem w) p))
       = load_u32 (mem w) (p + offsetof_headerCrc cfg))
  /\ List.length (header_bytes_crc_zeroed cfg (mem w) p)
       = Z.to_nat (sizeof_HSS_BootImage cfg)
  /\ (forall c,
        In (Printf LOG_NORMAL diag_crc_fmt [Int c]) (events_of (HSS_BootInit cfg f w)) ->
        exists r q d w1 pre,
          HSS_BootInit_acquire cfg f NULL false w = (r, q, d, w1, pre) /\
          result_of (validateCrc_ cfg q w1) = false /\
          (let w2 := world_of (validateCrc_ cfg q w1) in
           c = u32 (CRC32_calculate
                      (load_bytes (mem w2) q
                         (Z.to_nat (load_u64 (mem w2)
                                      (q + offsetof_bootImageLength cfg)))))) /\
          result_of (HSS_BootInit cfg f w) = r /\
          existsb is_register (events_of (HSS_BootInit cfg f w)) = false)
  /\ (result_of (HSS_BootInit (E := with_CRC32 E crc') cfg f w)
        = result_of (HSS_BootInit cfg f w) /\
      world_of (HSS_BootInit (E := with_CRC32 E crc') cfg f w)
        = world_of (HSS_BootInit cfg f w) /\
      filter is_register (events_of (HSS_BootInit (E := with_CRC32 E crc') cfg f w))
        = filter is_register (events_of (HSS_BootInit cfg f w)))
  /\ (forall r q d w1 pre,
        CONFIG_SERVICE_BOOT cfg = true ->
        HSS_BootInit_acquire cfg f NULL false w = (r, q, d, w1, pre) ->
        q <> NULL ->
        magic_at cfg (mem w1) q = mHSS_BOOT_MAGIC cfg ->
        result_of (validateCrc_ cfg q w1) = false ->
        let w2 := world_of (validateCrc_ cfg q w1) in
        let len := load_u64 (mem w2) (q + offsetof_bootImageLength cfg) in
        let c := u32 (CRC32_calculate (load_bytes (mem w2) q (Z.to_nat len))) in
        HSS_BootInit cfg f w =
          (r, w2,
           Printf LOG_NORMAL "Initializing Boot Image.." [] :: pre ++
           events_of (validateCrc_ cfg q w1) ++
           [Printf LOG_ERROR "%s boot image failed CRC"
              [Str (if d then "decompressed" else EmptyString)];
            Call_CRC32_calculate q len c;
            Printf LOG_NORMAL diag_crc_fmt [Int c]])).
Proof.
  split; [| split; [| split; [| split]]].
  - rewrite validateCrc_result. unfold header_crc_matches. apply Z.eqb_eq.
  - apply length_load_bytes.
  - intros c Hin.
    destruct (CONFIG_SERVICE_BOOT cfg) eqn:Hb.
    2:{ rewrite (HSS_BootInit_disabled cfg f w Hb) in Hin.
        destruct Hin as [Hin | []]. discriminate. }
    destruct (HSS_BootInit_run cfg f w Hb) as (r & q & d & w1 & pre & Hacq & Hrun).
    rewrite Hrun in *. clear Hrun. unfold events_of at 1 in Hin. cbn [snd] in Hin.
    destruct Hin as [Hin | Hin]; [discriminate |].
    assert (Hpre : forall e, In e pre ->
              is_register e = false /\ forall lvl args, e <> Printf lvl diag_crc_fmt args).
    { intros e He.
      replace pre with (events_of (HSS_BootInit_acquire cfg f NULL false w)) in He
        by now rewrite Hacq.
      apply acquire_events_not in He. tauto. }
    apply in_app_or in Hin. destruct Hin as [Hin | Hin].
    { apply Hpre in Hin. destruct Hin as [_ Hin]. now contradiction (Hin LOG_NORMAL [Int c]). }
    pose proof (HSS_BootInit_validate_exit cfg r q d w1) as Hx.
    destruct (HSS_BootInit_validate cfg r q d w1) as [[res w3] evv].
    unfold result_of, events_of in Hin |- *. cbn [fst snd] in Hin |- *.
    inversion Hx as [Hp | Hp Hm | w2 evc u w2' res' w3' launch Hp Hm Hc Hr Hl
                     | w2 evc len crc Hp Hm Hc]; subst.
    + destruct Hin as [Hin | []]. discriminate.
    + destruct Hin as [Hin | []]. discriminate.
    + exfalso. apply in_app_or in Hin. destruct Hin as [Hin | Hin].
      * replace evc with (events_of (validateCrc_ cfg q w1)) in Hin by now rewrite Hc.
        apply validateCrc_events_not in Hin. destruct Hin as (_ & _ & Hin).
        now apply (Hin c).
      * simpl in Hin.
        destruct Hin as [Hin | [Hin | [Hin | [Hin | [Hin | []]]]]]; try discriminate.
        destruct (CONFIG_SERVICE_BOOT_CUSTOM_FLOW cfg).
        -- destruct Hl as [_ ->]. discriminate.
        -- destruct Hl as (rc & _ & _ & ->). discriminate.
    + assert (Hevc : forall e, In e evc ->
                is_register e = false /\ forall c, e <> Printf LOG_NORMAL diag_crc_fmt [Int c]).
      { intros e He.
        replace evc with (events_of (validateCrc_ cfg q w1)) in He by now rewrite Hc.
        apply validateCrc_events_not in He. tauto. }
      apply in_app_or in Hin. destruct Hin as [Hin | Hin].
      { apply Hevc in Hin. destruct Hin as [_ Hin]. now contradiction (Hin c). }
      simpl in Hin. destruct Hin as [Hin | [Hin | [Hin | []]]]; try discriminate.
      injection Hin as <-.
      exists res, q, d, w1, pre.
      split; [exact Hacq |]. rewrite Hc. unfold result_of, world_of. cbn [fst snd].
      repeat split.
      apply existsb_false. intros e [<- | He]; [reflexivity |].
      apply in_app_or in He. destruct He as [He | He]; [now apply Hpre in He |].
      apply in_app_or in He. destruct He as [He | He]; [now apply Hevc in He |].
      simpl in He. destruct He as [<- | [<- | [<- | []]]]; reflexivity.
  - destruct (CONFIG_SERVICE_BOOT cfg) eqn:Hb.
    2:{ rewrite (HSS_BootInit_disabled (E := E) cfg f w Hb).
        rewrite (HSS_BootInit_disabled (E := with_CRC32 E crc') cfg f w Hb).
        repeat split. }
    destruct (HSS_BootInit_run (E := E) cfg f w Hb)
      as (r & q & d & w1 & pre & Hacq & Hrun).
    destruct (HSS_BootInit_run (E := with_CRC32 E crc') cfg f w Hb)
      as (r' & q' & d' & w1' & pre' & Hacq' & Hrun').
    rewrite acquire_with_CRC32, Hacq in Hacq'. injection Hacq' as <- <- <- <- <-.
    rewrite Hrun, Hrun'.
    destruct (validate_with_CRC32 crc' r q d w1 Hcrc) as (H1 & H2 & H3).
    unfold result_of, world_of, events_of in *. cbn [fst snd] in *.
    repeat split; try assumption.
    cbn [filter is_register]. rewrite !filter_app. now rewrite H3.
  - intros r q d w1 pre Hb Hacq Hnn Hm Hfail. cbv zeta.
    destruct (HSS_BootInit_run (E := E) cfg f w Hb)
      as (r' & q' & d' & w1' & pre' & Hacq' & Hrun).
    rewrite Hacq in Hacq'. injection Hacq' as <- <- <- <- <-.
    rewrite Hrun.
    pose proof (HSS_BootInit_validate_exit cfg r q d w1) as Hx.
    destruct (HSS_BootInit_validate cfg r q d w1) as [[res w3] evv].
    inversion Hx as [Hp | Hp Hm' | w2 evc u w2' res' w3' launch Hp Hm' Hc Hr Hl
                     | w2 evc len crc Hp Hm' Hc]; subst; try contradiction.
    + rewrite Hc in Hfail. discriminate.
    + rewrite Hc. reflexivity.
Qed.

End HeaderGate.

(** * Further facts about the readers and the orchestrator *)

Lemma store_u32_overwrite (m : memory) (a v v' : Z) :
  mem_eq (store_u32 (store_u32 m a v) a v') (store_u32 m a v').
Proof.
  intros x. unfold store_u32, store_bytes. rewrite !length_le_split.
  destruct ((a <=? x) && (x <? a + Z.of_nat 4)); reflexivity.
Qed.

Lemma u32_idem (z : Z) : u32 (u32 z) = u32 z.
Proof. unfold u32. apply Z.mod_mod. lia. Qed.

Section MoreFacts.

Context {Ext : Type} {E : Externals Ext} (cfg : Config).

Ltac unfold_code :=
  unfold call_getBootImageFunction, getBootImageFromSpiFlash_, getBootImageFromMMC_,
    getBootImageFromMMC_GPT_lookup, getBootImageFromMMC_read, getBootImageFromQSPI_,
    getBootImageFromPayload_, copyBootImageToDDR_, printBootImageDetails_,
    spiFlashReadBlock_, HSS_MMC_ReadBlock_, HSS_QSPI_ReadBlock_, verifyMagic_.

(** ** validateCrc_ *)

(** X1. Whatever value is written into the headerCrc field of a header,
    [validateCrc_] then returns true exactly when that value (as a
    [uint32_t]) is the CRC32 of the header taken with the field zeroed; so a
    header sealed with that CRC32 passes, and the outcome does not depend on
    what the field held before. *)
Theorem validateCrc_after_seal (p v : Z) (w : World Ext) :
  let a := p + offsetof_headerCrc cfg in
  let crc := u32 (CRC32_calculate (header_bytes_crc_zeroed cfg (mem w) p)) in
  result_of (validateCrc_ cfg p (mkWorld (store_u32 (mem w) a v) (ext w)))
    = (crc =? u32 v)
  /\ result_of (validateCrc_ cfg p (mkWorld (store_u32 (mem w) a crc) (ext w))) = true.
Proof.
  cbv zeta.
  assert (H : forall x,
    result_of (validateCrc_ cfg p
                 (mkWorld (store_u32 (mem w) (p + offsetof_headerCrc cfg) x) (ext w)))
    = (u32 (CRC32_calculate (header_bytes_crc_zeroed cfg (mem w) p)) =? u32 x)).
  { intros x. rewrite validateCrc_result. cbn [mem].
    unfold header_crc_matches, header_bytes_crc_zeroed.
    rewrite load_u32_store_u32.
    rewrite (load_bytes_ext _ (store_u32 (mem w) (p + offsetof_headerCrc cfg) 0))
      by apply store_u32_overwrite.
    reflexivity. }
  split; [apply H |].
  rewrite H, u32_idem. apply Z.eqb_refl.
Qed.

(** ** The readers *)

(** X2. The block-copy readers store the DDR target address in the caller's
    pointer exactly when the copy was attempted, whatever the copy returned,
    and leave the pointer alone otherwise.  MMC and SPI flash attempt the
    copy when the header read worked and the magic is recognised; QSPI
    without XIP attempts it when the magic is recognised, whatever the header
    read returned.  The result is then the result of the copy. *)
Theorem block_copy_readers_result (srcOffset pp : Z) (w : World Ext) :
  result_of (getBootImageFromMMC_read cfg srcOffset pp w) =
    (let off := u64 (srcOffset * GPT_LBA_SIZE cfg) in
     let '(ok1, wa) := HSS_MMC_ReadBlock (bootImage cfg) off (sizeof_HSS_BootImage cfg) w in
     if ok1 && magic_recognised cfg (mem wa) (bootImage cfg) then
       (fst (HSS_MMC_ReadBlock (CONFIG_SERVICE_BOOT_DDR_TARGET_ADDR cfg) off
               (load_u64 (mem wa) (bootImage cfg + offsetof_bootImageLength cfg)) wa),
        CONFIG_SERVICE_BOOT_DDR_TARGET_ADDR cfg)
     else (false, pp))
  /\
  result_of (getBootImageFromSpiFlash_ cfg pp w) =
    (let off := u64 (CONFIG_SERVICE_BOOT_SPI_FLASH_OFFSET cfg) in
     let '(rc1, wa) := MSS_SYS_spi_copy (bootImage cfg) off (sizeof_HSS_BootImage cfg) 3 0
                         (snd (MSS_SYS_select_service_mode w)) in
     if (rc1 =? 0) && magic_recognised cfg (mem wa) (bootImage cfg) then
       (fst (MSS_SYS_spi_copy (CONFIG_SERVICE_BOOT_DDR_TARGET_ADDR cfg) off
               (load_u64 (mem wa) (bootImage cfg + offsetof_bootImageLength cfg)) 3 0 wa)
          =? 0,
        CONFIG_SERVICE_BOOT_DDR_TARGET_ADDR cfg)
     else (false, pp))
  /\
  (CONFIG_SERVICE_QSPI_USE_XIP cfg = false ->
   result_of (getBootImageFromQSPI_ cfg pp w) =
     (let '(ok1, wa) := HSS_QSPI_ReadBlock (bootImage cfg) 0 (sizeof_HSS_BootImage cfg) w in
      if magic_recognised cfg (mem wa) (bootImage cfg) then
        (fst (HSS_QSPI_ReadBlock (CONFIG_SERVICE_BOOT_DDR_TARGET_ADDR cfg) 0
                (load_u64 (mem wa) (bootImage cfg + offsetof_bootImageLength cfg)) wa),
         CONFIG_SERVICE_BOOT_DDR_TARGET_ADDR cfg)
      else (false, pp))).
Proof.
  unfold magic_recognised, magic_at. cbv zeta.
  split; [| split].
  - unfold_code; run; try reflexivity; try discriminate; congruence.
  - unfold_code; run; try reflexivity; try discriminate; congruence.
  - intros Hx. unfold_code. rewrite Hx. cbn [negb].
    run; try reflexivity; try discriminate; congruence.
Qed.

Ltac in_cases H :=
  cbn [app In] in H;
  repeat (destruct H as [H | H]; [try discriminate; try (inversion H; subst; clear H) |]);
  try contradiction.

(** X3. The two-step read of a block-copy reader uses one source offset:
    the header read and the copy that the reader issues itself go to the same
    offset, which is [srcOffset * GPT_LBA_SIZE] (wrapped to 64 bits) for the
    generic read of the MMC reader entered with [srcOffset] (lines 321-343;
    the whole MMC reader when GPT is not configured, with offset 0), the
    configured flash offset for SPI flash, and 0 for QSPI without XIP.  Each
    of these reads goes either to the scratch header, with the size of the
    header, or to the DDR target address.  The reads the partition-table
    functions make on their own are no part of this. *)
Theorem block_copy_reads_one_offset (srcOffset pp : Z) (w : World Ext) :
  (forall dst off cnt ok,
     In (Call_MMC_ReadBlock dst off cnt ok)
        (events_of (getBootImageFromMMC_read cfg srcOffset pp w)) ->
     off = u64 (srcOffset * GPT_LBA_SIZE cfg) /\
     (dst = bootImage cfg /\ cnt = sizeof_HSS_BootImage cfg \/
      dst = CONFIG_SERVICE_BOOT_DDR_TARGET_ADDR cfg))
  /\
  (CONFIG_SERVICE_BOOT_MMC_USE_GPT cfg = false ->
   forall dst off cnt ok,
     In (Call_MMC_ReadBlock dst off cnt ok) (events_of (getBootImageFromMMC_ cfg pp w)) ->
     off = 0 /\
     (dst = bootImage cfg /\ cnt = sizeof_HSS_BootImage cfg \/
      dst = CONFIG_SERVICE_BOOT_DDR_TARGET_ADDR cfg))
  /\
  (forall dst off cnt rc,
     In (Call_spi_copy dst off cnt rc) (events_of (getBootImageFromSpiFlash_ cfg pp w)) ->
     off = u64 (CONFIG_SERVICE_BOOT_SPI_FLASH_OFFSET cfg) /\
     (dst = bootImage cfg /\ cnt = sizeof_HSS_BootImage cfg \/
      dst = CONFIG_SERVICE_BOOT_DDR_TARGET_ADDR cfg))
  /\
  (CONFIG_SERVICE_QSPI_USE_XIP cfg = false ->
   forall dst off cnt ok,
     In (Call_QSPI_ReadBlock dst off cnt ok) (events_of (getBootImageFromQSPI_ cfg pp w)) ->
     off = 0 /\
     (dst = bootImage cfg /\ cnt = sizeof_HSS_BootImage cfg \/
      dst = CONFIG_SERVICE_BOOT_DDR_TARGET_ADDR cfg)).
Proof.
  split; [| split; [| split]].
  - unfold_code; run; intros dst off cnt ok Hin; in_cases Hin; auto.
  - intros Hg. unfold_code. rewrite Hg.
    run; intros dst off cnt ok Hin; in_cases Hin; auto.
  - unfold_code; run; intros dst off cnt ok Hin; in_cases Hin; auto.
  - intros Hx. unfold_code. rewrite Hx. cbn [negb].
    run; intros dst off cnt ok Hin; in_cases Hin; auto.
Qed.

(** X4. The payload reader works in place: it calls no collaborator,
    leaves the world as it is, and stores the address of the payload in the
    caller's pointer in every case, also when the magic is not recognised and
    it returns false; its result is the outcome of the magic test on the
    payload. *)
Theorem payload_reader_in_place (pp : Z) (w : World Ext) :
  world_of (getBootImageFromPayload_ cfg pp w) = w /\
  result_of (getBootImageFromPayload_ cfg pp w)
    = (magic_recognised cfg (mem w) (_payload_start cfg), _payload_start cfg) /\
  forallb is_printf (events_of (getBootImageFromPayload_ cfg pp w)) = true.
Proof.
  unfold magic_recognised, magic_at.
  unfold_code. run; repeat split; congruence.
Qed.

(** X5. The partition lookup of the MMC reader runs its steps in order and
    stops at the first that fails: each step is called only after the one
    before it has returned true.  The lookup returns true exactly when the
    search by type identifier has; the offset it yields is then the first
    block of the partition found (as a [size_t]), and the offset it was
    entered with otherwise. *)
Theorem gpt_lookup_steps (srcOffset : Z) (w : World Ext) :
  let lk := getBootImageFromMMC_GPT_lookup srcOffset w in
  (forall b, In (Call_GPT GPT_ValidateHeader_ b) (events_of lk) ->
             In (Call_GPT GPT_ReadHeader_ true) (events_of lk))
  /\ (forall b, In (Call_GPT GPT_ValidatePartitionEntries_ b) (events_of lk) ->
                In (Call_GPT GPT_ValidateHeader_ true) (events_of lk))
  /\ (forall b, In (Call_GPT GPT_FindPartitionByTypeId_ b) (events_of lk) ->
                In (Call_GPT GPT_ValidatePartitionEntries_ true) (events_of lk))
  /\ (fst (result_of lk) = true <->
      In (Call_GPT GPT_FindPartitionByTypeId_ true) (events_of lk))
  /\ (fst (result_of lk) = true ->
      exists w1 firstLBA lastLBA w2,
        GPT_FindPartitionByTypeId (0x21686148, 0x6449, 0x6E6F, 0x4946456465654e74) w1
          = (true, firstLBA, lastLBA, w2) /\
        snd (result_of lk) = u64 firstLBA /\ world_of lk = w2)
  /\ (fst (result_of lk) = false -> snd (result_of lk) = srcOffset).
Proof.
  cbv zeta. unfold getBootImageFromMMC_GPT_lookup.
  run; cbn [app In];
    (repeat split;
     try (intros b' Hin; in_cases Hin; tauto);
     try (intros Hin; try discriminate; try reflexivity; in_cases Hin; tauto);
     try tauto).
  all: intros _; do 4 eexists; eauto.
Qed.

(** ** The orchestrator *)

Ltac split_in H :=
  lazymatch type of H with
  | In _ (_ ++ _) => apply in_app_or in H; destruct H as [H | H]; split_in H
  | In _ (_ :: _) => destruct H as [H | H]; [| split_in H]
  | In _ [] => destruct H
  | _ => idtac
  end.

Lemma validateCrc_run_events (p : Z) (w w' : World Ext) (b : bool) (evc : list event) :
  validateCrc_ cfg p w = (b, w', evc) ->
  b = header_crc_matches cfg (mem w) p /\
  exists crc,
    evc = Call_CRC32_calculate p (sizeof_HSS_BootImage cfg) crc ::
          (if b then []
           else [Printf LOG_ERROR
                   "Checked HSS_BootImage header CRC (%p->%p): calculated %08x vs expected %08x"
                   [Ptr p; Ptr (p + sizeof_HSS_BootImage cfg); Int crc;
                    Int (load_u32 (mem w) (p + offsetof_headerCrc cfg))]]).
Proof.
  intros H.
  pose proof (validateCrc_result cfg p w) as Hr.
  destruct (validateCrc_events cfg p w) as [crc Hev].
  rewrite H in Hr, Hev. unfold result_of, events_of in *. cbn [fst snd] in *.
  split; [exact Hr | exists crc; exact Hev].
Qed.

Lemma acquire_event_facts (e : event) :
  acquire_event e = true ->
  is_launch e = false /\ is_register e = false /\ is_crc32 e = false /\
  forall lvl args, e <> Printf lvl diag_crc_fmt args.
Proof.
  intros He. destruct e; try discriminate; repeat split; try discriminate.
  intros lvl' args' Heq. inversion Heq; subst. vm_compute in He. discriminate.
Qed.

(** A run of [HSS_BootInit]: nothing but the opening print when the boot
    service is not configured; else the opening print, the events of the
    acquisition stage and those of one exit of the validation block. *)
Lemma HSS_BootInit_cases (f : HSS_GetBootImageFnPtr_t) (w : World Ext) :
  (CONFIG_SERVICE_BOOT cfg = false /\
   HSS_BootInit cfg f w = (false, w, [Printf LOG_NORMAL "Initializing Boot Image.." []]))
  \/
  (CONFIG_SERVICE_BOOT cfg = true /\
   exists r p d w1 pre res w3 evv,
     HSS_BootInit_acquire cfg f NULL false w = (r, p, d, w1, pre) /\
     (forall e, In e pre -> acquire_event e = true) /\
     validate_exit cfg r p d w1 (res, w3, evv) /\
     HSS_BootInit cfg f w =
       (res, w3, Printf LOG_NORMAL "Initializing Boot Image.." [] :: pre ++ evv)).
Proof.
  destruct (CONFIG_SERVICE_BOOT cfg) eqn:Hb.
  2:{ left. split; [reflexivity | now apply HSS_BootInit_disabled]. }
  right. split; [reflexivity |].
  destruct (HSS_BootInit_run cfg f w Hb) as (r & p & d & w1 & pre & Hacq & Hrun).
  pose proof (HSS_BootInit_validate_exit cfg r p d w1) as Hx.
  destruct (HSS_BootInit_validate cfg r p d w1) as [[res w3] evv].
  exists r, p, d, w1, pre, res, w3, evv.
  split; [exact Hacq |]. split; [| split; [exact Hx | exact Hrun]].
  pose proof (acquire_events cfg f NULL false w) as Ha.
  rewrite Hacq in Ha. unfold events_of in Ha. cbn [snd] in Ha.
  now rewrite forallb_forall in Ha.
Qed.

(** X6. What [HSS_BootInit] returns.  It returns true exactly in these
    cases: the image was registered and the launch reported success
    ([HSS_Boot_Custom] returned true, or [HSS_Boot_RestartCore] returned
    [IPI_SUCCESS]); or the header CRC check failed (the diagnostic CRC32 was
    printed) while the acquisition stage had left [result] true, as the
    branch of the failed check does not clear [result]. *)
Theorem HSS_BootInit_true_iff (f : HSS_GetBootImageFnPtr_t) (w : World Ext) :
  let evs := events_of (HSS_BootInit cfg f w) in
  result_of (HSS_BootInit cfg f w) = true <->
  (In (Call_Boot_Custom true) evs \/
   In (Call_Boot_RestartCore (HSS_HART_ALL cfg) (IPI_SUCCESS cfg)) evs \/
   (fst (fst (result_of (HSS_BootInit_acquire cfg f NULL false w))) = true /\
    exists c, In (Printf LOG_NORMAL diag_crc_fmt [Int c]) evs)).
Proof.
  cbv zeta.
  destruct (HSS_BootInit_cases f w)
    as [[Hb Hrun] | (Hb & r & p & d & w1 & pre & res & w3 & evv & Hacq & Hpre & Hx & Hrun)];
    rewrite Hrun; unfold result_of, events_of; cbn [fst snd].
  { split; [discriminate |].
    intros [H | [H | (_ & c & H)]]; split_in H; discriminate. }
  rewrite Hacq. cbn [fst snd].
  assert (Hp : forall e, In e pre ->
            is_launch e = false /\ forall c, e <> Printf LOG_NORMAL diag_crc_fmt [Int c]).
  { intros e He. apply Hpre in He. apply acquire_event_facts in He.
    destruct He as (H1 & _ & _ & H2). split; [exact H1 | intros c; apply H2]. }
  inversion Hx as [Hnull | Hnn Hm | w2 evc u w2' res' w3' launch Hnn Hm Hc Hr Hl
                   | w2 evc len crc Hnn Hm Hc]; subst.
  - split; [discriminate |].
    intros [H | [H | (_ & c & H)]]; split_in H; try discriminate;
      apply Hp in H; destruct H as [H1 H2]; try discriminate;
      exfalso; now apply (H2 c).
  - split; [discriminate |].
    intros [H | [H | (_ & c & H)]]; split_in H; try discriminate;
      apply Hp in H; destruct H as [H1 H2]; try discriminate;
      exfalso; now apply (H2 c).
  - destruct (validateCrc_run_events _ _ _ _ _ Hc) as [_ [crc ->]].
    destruct (CONFIG_SERVICE_BOOT_CUSTOM_FLOW cfg).
    + destruct Hl as [Hcall ->]. split.
      * intros ->. left. right. apply in_or_app. right. simpl. tauto.
      * intros [H | [H | (_ & c & H)]]; split_in H; try discriminate;
          try (apply Hp in H; destruct H as [H1 H2]; try discriminate;
               exfalso; now apply (H2 c)).
        now inversion H.
    + destruct Hl as (rc & Hcall & -> & ->). split.
      * intros Hrc. apply Z.eqb_eq in Hrc. subst rc.
        right. left. right. apply in_or_app. right. simpl. tauto.
      * intros [H | [H | (_ & c & H)]]; split_in H; try discriminate;
          try (apply Hp in H; destruct H as [H1 H2]; try discriminate;
               exfalso; now apply (H2 c)).
        inversion H. apply Z.eqb_refl.
  - destruct (validateCrc_run_events _ _ _ _ _ Hc) as [_ [crc0 ->]].
    split.
    + intros ->. right. right. split; [reflexivity |].
      eexists. right. apply in_or_app. right. simpl. eauto 8.
    + intros [H | [H | (Hres & _)]]; [| | exact Hres];
        split_in H; try discriminate; apply Hp in H; destruct H; discriminate.
Qed.

(** X7. The launch comes last and only after a registration: when a run of
    [HSS_BootInit] calls [HSS_Boot_Custom] or [HSS_Boot_RestartCore], that
    call is the last event of the run, it follows the registration and its
    print, and no other launch precedes it.  With the custom flow configured
    it is [HSS_Boot_Custom] and the run returns what it returned; otherwise
    it is [HSS_Boot_RestartCore] on [HSS_HART_ALL] and the run returns
    whether it returned [IPI_SUCCESS]. *)
Theorem launch_only_after_registration (f : HSS_GetBootImageFnPtr_t) (w : World Ext)
    (e : event) :
  In e (events_of (HSS_BootInit cfg f w)) ->
  is_launch e = true ->
  exists q before,
    events_of (HSS_BootInit cfg f w) =
      before ++ [Call_Register_Boot_Image q;
                 Printf LOG_NORMAL "Boot Image registered..." []; e] /\
    existsb is_launch before = false /\
    (if CONFIG_SERVICE_BOOT_CUSTOM_FLOW cfg
     then e = Call_Boot_Custom (result_of (HSS_BootInit cfg f w))
     else exists rc, e = Call_Boot_RestartCore (HSS_HART_ALL cfg) rc /\
                     result_of (HSS_BootInit cfg f w) = (rc =? IPI_SUCCESS cfg)).
Proof.
  intros Hin Hl.
  destruct (HSS_BootInit_cases f w)
    as [[Hb Hrun] | (Hb & r & p & d & w1 & pre & res & w3 & evv & Hacq & Hpre & Hx & Hrun)];
    rewrite Hrun in *; unfold result_of, events_of in *; cbn [fst snd] in *.
  { split_in Hin. subst e. discriminate. }
  assert (Hp : forall x, In x pre -> is_launch x = false).
  { intros x Hx'. apply Hpre in Hx'. now apply acquire_event_facts in Hx'. }
  inversion Hx as [Hnull | Hnn Hm | w2 evc u w2' res' w3' launch Hnn Hm Hc Hr Hla
                   | w2 evc len crc Hnn Hm Hc]; subst.
  - split_in Hin; try (subst e; discriminate). apply Hp in Hin. congruence.
  - split_in Hin; try (subst e; discriminate). apply Hp in Hin. congruence.
  - destruct (validateCrc_run_events _ _ _ _ _ Hc) as [_ [crc ->]].
    assert (He : e = launch).
    { split_in Hin; try (subst e; discriminate); try reflexivity; try congruence.
      apply Hp in Hin. congruence. }
    subst e.
    exists p.
    exists (Printf LOG_NORMAL "Initializing Boot Image.." [] :: pre ++
        [Call_CRC32_calculate p (sizeof_HSS_BootImage cfg) crc;
         Printf LOG_NORMAL "%s boot image passed CRC"
           [Str (if d then "decompressed" else EmptyString)];
         Printf LOG_NORMAL fmt_set_name [Ptr (p + offsetof_set_name cfg)]]).
    split.
    { cbn [app]. rewrite <- app_assoc. reflexivity. }
    split.
    { cbn [existsb is_launch orb]. rewrite existsb_app.
      replace (existsb is_launch pre) with false
        by (symmetry; apply existsb_false; exact Hp).
      reflexivity. }
    destruct (CONFIG_SERVICE_BOOT_CUSTOM_FLOW cfg).
    + now destruct Hla as [_ ->].
    + destruct Hla as (rc & _ & -> & ->). exists rc. split; reflexivity.
  - destruct (validateCrc_run_events _ _ _ _ _ Hc) as [_ [crc0 ->]].
    split_in Hin; try (subst e; discriminate). apply Hp in Hin. congruence.
Qed.

(** The pointer a reader leaves is the one it was given or one of the three
    fixed addresses. *)
Lemma reader_pointer (f : HSS_GetBootImageFnPtr_t) (pp : Z) (w : World Ext) :
  let p := snd (result_of (call_getBootImageFunction cfg f pp w)) in
  p = pp \/ p = CONFIG_SERVICE_BOOT_DDR_TARGET_ADDR cfg \/
  (f = FromQSPI /\ CONFIG_SERVICE_QSPI_USE_XIP cfg = true /\ p = QSPI_BASE cfg) \/
  (f = FromPayload /\ p = _payload_start cfg).
Proof.
  cbv zeta. destruct f; unfold_code; run; auto 6.
Qed.

Lemma acquire_pointer (f : HSS_GetBootImageFnPtr_t) (w w1 : World Ext) (r d : bool)
    (p : Z) (pre : list event) :
  HSS_BootInit_acquire cfg f NULL false w = (r, p, d, w1, pre) ->
  p = NULL \/ p = CONFIG_SERVICE_BOOT_DDR_TARGET_ADDR cfg \/
  (f = FromQSPI /\ CONFIG_SERVICE_QSPI_USE_XIP cfg = true /\ p = QSPI_BASE cfg) \/
  (f = FromPayload /\ p = _payload_start cfg).
Proof.
  intros Hacq.
  destruct (acquire_split cfg f NULL false w) as (r0 & p0 & w0 & ev0 & Hr & Ha).
  pose proof (reader_pointer f NULL w) as Hp0. cbv zeta in Hp0.
  rewrite Hr in Hp0. unfold result_of in Hp0. cbn [fst snd] in Hp0.
  rewrite Ha in Hacq.
  destruct (decompress_cases cfg r0 p0 false w0)
    as [[Hd _] | (_ & _ & _ & [[_ Hd] | (_ & p1 & w2 & evs & Hto & Hd)])];
    rewrite Hd in Hacq; unfold result_of, world_of, events_of in Hacq;
    cbn [fst snd] in Hacq; injection Hacq as <- <- <- <- <-; try exact Hp0.
  destruct (decompress_to_DDR_run cfg p0 w0) as (n & w' & _ & Hrun).
  rewrite Hrun in Hto. injection Hto as <- _ _.
  destruct (n =? 0); auto.
Qed.

(** Where a call of the decompressor leaves the acquisition stage. *)
Lemma decompress_call_outcome (f : HSS_GetBootImageFnPtr_t) (w : World Ext)
    (pIn pOut n : Z) :
  In (Call_Decompress pIn pOut n) (events_of (HSS_BootInit cfg f w)) ->
  result_of (HSS_BootInit_acquire cfg f NULL false w) =
    (true, (if n =? 0 then NULL else CONFIG_SERVICE_BOOT_DDR_TARGET_ADDR cfg), true).
Proof.
  intros Hin.
  destruct (CONFIG_SERVICE_BOOT cfg) eqn:Hb.
  2:{ rewrite (HSS_BootInit_disabled cfg f w Hb) in Hin.
      unfold events_of in Hin. cbn [snd] in Hin. split_in Hin. discriminate. }
  destruct (HSS_BootInit_run cfg f w Hb) as (r & p & d & w1 & pre & Hacq & Hrun).
  rewrite Hrun in Hin. unfold events_of at 1 in Hin. cbn [snd] in Hin.
  destruct Hin as [Hin | Hin]; [discriminate |].
  apply in_app_or in Hin. destruct Hin as [Hin | Hin].
  2:{ apply validate_events_not in Hin. destruct Hin. discriminate. }
  destruct (acquire_split cfg f NULL false w) as (r0 & p0 & w0 & ev0 & Hr & Ha).
  rewrite Ha in Hacq |- *. unfold result_of at 1. cbn [fst].
  injection Hacq as _ _ Hpre. subst pre.
  apply in_app_or in Hin. destruct Hin as [Hin | Hin].
  { replace ev0 with (events_of (call_getBootImageFunction cfg f NULL w)) in Hin
      by now rewrite Hr.
    apply reader_events_no_decompress in Hin. discriminate. }
  destruct (decompress_cases cfg r0 p0 false w0)
    as [[Hd _] | (_ & _ & _ & [[_ Hd] | (_ & p1 & w2 & evs & Hto & Hd)])];
    rewrite Hd in Hin |- *; unfold result_of, events_of in *; cbn [fst snd] in *.
  - destruct Hin.
  - split_in Hin. discriminate.
  - destruct (decompress_to_DDR_run cfg p0 w0) as (n' & w' & _ & Hrun').
    rewrite Hrun' in Hto. injection Hto as <- _ <-.
    split_in Hin; try discriminate. now injection Hin as _ _ ->.
Qed.

(** X8. [HSS_BootInit] registers nothing but one of the fixed addresses:
    the DDR target address, or, for an image used in place, [QSPI_BASE]
    (QSPI reader with XIP) or the address of the payload (payload reader). *)
Theorem registered_pointer_is_known (f : HSS_GetBootImageFnPtr_t) (w : World Ext) (q : Z) :
  In (Call_Register_Boot_Image q) (events_of (HSS_BootInit cfg f w)) ->
  q = CONFIG_SERVICE_BOOT_DDR_TARGET_ADDR cfg \/
  (f = FromQSPI /\ CONFIG_SERVICE_QSPI_USE_XIP cfg = true /\ q = QSPI_BASE cfg) \/
  (f = FromPayload /\ q = _payload_start cfg).
Proof.
  intros Hin.
  destruct (HSS_BootInit_cases f w)
    as [[Hb Hrun] | (Hb & r & p & d & w1 & pre & res & w3 & evv & Hacq & Hpre & Hx & Hrun)];
    rewrite Hrun in *; unfold events_of in *; cbn [snd] in *.
  { split_in Hin. discriminate. }
  assert (Hp : forall x, In x pre -> is_register x = false).
  { intros x Hx'. apply Hpre in Hx'. now apply acquire_event_facts in Hx'. }
  assert (Hq : q = p /\ p <> NULL).
  { inversion Hx as [Hnull | Hnn Hm | w2 evc u w2' res' w3' launch Hnn Hm Hc Hr Hla
                     | w2 evc len crc Hnn Hm Hc]; subst;
      try (destruct (validateCrc_run_events _ _ _ _ _ Hc) as [_ [crc0 ->]]);
      split_in Hin; try discriminate;
      try (apply Hp in Hin; discriminate).
    - injection Hin as <-. auto.
    - exfalso. destruct (CONFIG_SERVICE_BOOT_CUSTOM_FLOW cfg).
      + destruct Hla as [_ ->]. discriminate.
      + destruct Hla as (rc & _ & _ & ->). discriminate. }
  destruct Hq as [-> Hnn].
  destruct (acquire_pointer _ _ _ _ _ _ _ Hacq) as [H | H]; [contradiction | exact H].
Qed.

(** X9. Any non-zero value returned by the decompressor, a negative one
    included, counts as success: the acquisition stage then ends with
    [result] true, the image pointer at the DDR target address and the
    decompressed flag set, and whatever is registered afterwards is the
    image at the DDR target address. *)
Theorem decompress_nonzero_relocates (f : HSS_GetBootImageFnPtr_t) (w : World Ext)
    (pIn pOut n : Z) :
  In (Call_Decompress pIn pOut n) (events_of (HSS_BootInit cfg f w)) ->
  n <> 0 ->
  result_of (HSS_BootInit_acquire cfg f NULL false w)
    = (true, CONFIG_SERVICE_BOOT_DDR_TARGET_ADDR cfg, true) /\
  (forall q, In (Call_Register_Boot_Image q) (events_of (HSS_BootInit cfg f w)) ->
             q = CONFIG_SERVICE_BOOT_DDR_TARGET_ADDR cfg).
Proof.
  intros Hin Hn.
  pose proof (decompress_call_outcome f w pIn pOut n Hin) as Hout.
  apply Z.eqb_neq in Hn. rewrite Hn in Hout.
  split; [exact Hout |].
  intros q Hq.
  destruct (HSS_BootInit_cases f w)
    as [[Hb Hrun] | (Hb & r & p & d & w1 & pre & res & w3 & evv & Hacq & Hpre & Hx & Hrun)];
    rewrite Hrun in *; unfold events_of in *; cbn [snd] in *.
  { split_in Hq. discriminate. }
  rewrite Hacq in Hout. unfold result_of in Hout. cbn [fst] in Hout.
  injection Hout as -> -> ->.
  assert (Hp : forall x, In x pre -> is_register x = false).
  { intros x Hx'. apply Hpre in Hx'. now apply acquire_event_facts in Hx'. }
  inversion Hx as [Hnull | Hnn Hm | w2 evc u w2' res' w3' launch Hnn Hm Hc Hr Hla
                   | w2 evc len crc Hnn Hm Hc]; subst;
    try (destruct (validateCrc_run_events _ _ _ _ _ Hc) as [_ [crc0 ->]]);
    split_in Hq; try discriminate;
    try (apply Hp in Hq; discriminate).
  - now injection Hq as <-.
  - exfalso. destruct (CONFIG_SERVICE_BOOT_CUSTOM_FLOW cfg).
    + destruct Hla as [_ ->]. discriminate.
    + destruct Hla as (rc & _ & _ & ->). discriminate.
Qed.

(** X10. Every validated image is registered and launched: when the
    acquisition stage ends with a non-null pointer to a header whose magic is
    [mHSS_BOOT_MAGIC] and whose header CRC matches, [HSS_BootInit] calls
    [HSS_Register_Boot_Image] on it and then the launch, and prints no
    diagnostic CRC32 -- whatever [result] the acquisition stage left, which
    the validation block does not consult. *)
Theorem validated_image_is_registered (f : HSS_GetBootImageFnPtr_t) (w w1 : World Ext)
    (r d : bool) (p : Z) (pre : list event) :
  CONFIG_SERVICE_BOOT cfg = true ->
  HSS_BootInit_acquire cfg f NULL false w = (r, p, d, w1, pre) ->
  p <> NULL ->
  magic_at cfg (mem w1) p = mHSS_BOOT_MAGIC cfg ->
  header_crc_matches cfg (mem w1) p = true ->
  In (Call_Register_Boot_Image p) (events_of (HSS_BootInit cfg f w)) /\
  existsb is_launch (events_of (HSS_BootInit cfg f w)) = true /\
  (forall c, ~ In (Printf LOG_NORMAL diag_crc_fmt [Int c]) (events_of (HSS_BootInit cfg f w))).
Proof.
  intros Hboot Hacq0 Hnn0 Hm0 Hcrc.
  destruct (HSS_BootInit_cases f w)
    as [[Hb Hrun] | (Hb & r' & p' & d' & w1' & pre' & res & w3 & evv & Hacq & Hpre & Hx & Hrun)];
    [congruence |].
  rewrite Hacq0 in Hacq. injection Hacq as <- <- <- <- <-.
  rewrite Hrun. unfold events_of. cbn [snd].
  inversion Hx as [Hnull | Hnn Hm | w2 evc u w2' res' w3' launch Hnn Hm Hc Hr Hla
                   | w2 evc len crc Hnn Hm Hc]; subst; try contradiction.
  2:{ destruct (validateCrc_run_events _ _ _ _ _ Hc) as [Hf _]. congruence. }
  destruct (validateCrc_run_events _ _ _ _ _ Hc) as [_ [crc ->]].
  assert (Hlaunch : is_launch launch = true /\ forall c, launch <> Printf LOG_NORMAL diag_crc_fmt [Int c]).
  { destruct (CONFIG_SERVICE_BOOT_CUSTOM_FLOW cfg).
    - destruct Hla as [_ ->]. split; [reflexivity | discriminate].
    - destruct Hla as (rc & _ & _ & ->). split; [reflexivity | discriminate]. }
  destruct Hlaunch as [Hl1 Hl2].
  split; [| split].
  - right. apply in_or_app. right. simpl. tauto.
  - cbn [existsb is_launch orb]. rewrite existsb_app. apply orb_true_iff. right.
    cbn [app existsb is_launch orb]. now rewrite Hl1.
  - intros c Hin. split_in Hin; try discriminate.
    + apply Hpre in Hin. apply acquire_event_facts in Hin.
      destruct Hin as (_ & _ & _ & Hin). now apply (Hin LOG_NORMAL [Int c]).
    + now apply (Hl2 c).
Qed.

(** X11. A good image in the payload boots: with the payload reader, if
    the payload begins with a header whose magic is [mHSS_BOOT_MAGIC] and
    whose header CRC matches, then [HSS_BootInit] registers the payload in
    place and launches it, without calling the decompressor or reading any
    medium. *)
Theorem valid_payload_image_boots (w : World Ext) :
  CONFIG_SERVICE_BOOT cfg = true ->
  _payload_start cfg <> NULL ->
  mHSS_BOOT_MAGIC cfg <> mHSS_COMPRESSED_MAGIC cfg ->
  magic_at cfg (mem w) (_payload_start cfg) = mHSS_BOOT_MAGIC cfg ->
  header_crc_matches cfg (mem w) (_payload_start cfg) = true ->
  let evs := events_of (HSS_BootInit cfg FromPayload w) in
  In (Call_Register_Boot_Image (_payload_start cfg)) evs /\
  existsb is_launch evs = true /\
  existsb is_decompress evs = false /\
  existsb reads_medium evs = false.
Proof.
  intros Hboot Hnn0 Hsent Hm0 Hcrc. cbv zeta.
  assert (Hreader : exists ev0,
    call_getBootImageFunction cfg FromPayload NULL w = (true, _payload_start cfg, w, ev0) /\
    forallb is_printf ev0 = true).
  { unfold magic_at in Hm0. unfold_code. unfold_monad. rewrite Hm0, Z.eqb_refl.
    cbn [orb]. destruct (BOOT_DEBUG cfg); eexists; split; reflexivity. }
  destruct Hreader as (ev0 & Hr & Hev0).
  assert (Hacq0 : HSS_BootInit_acquire cfg FromPayload NULL false w
                  = (true, _payload_start cfg, false, w, ev0 ++ [])).
  { destruct (acquire_split cfg FromPayload NULL false w)
      as (r0 & p0 & w0 & ev0' & Hr' & Ha).
    rewrite Hr in Hr'. injection Hr' as <- <- <- <-. rewrite Ha.
    destruct (decompress_cases cfg true (_payload_start cfg) false w)
      as [[Hd _] | (_ & _ & Hc & _)]; [| congruence].
    rewrite Hd. reflexivity. }
  destruct (HSS_BootInit_cases FromPayload w)
    as [[Hb Hrun] | (Hb & r' & p' & d' & w1' & pre' & res & w3 & evv & Hacq & Hpre & Hx & Hrun)];
    [congruence |].
  rewrite Hacq0 in Hacq. injection Hacq as <- <- <- <- <-.
  rewrite Hrun. unfold events_of. cbn [snd].
  inversion Hx as [Hnull | Hnn Hm | w2 evc u w2' res' w3' launch Hnn Hm Hc Hreg Hla
                   | w2 evc len crc Hnn Hm Hc]; subst; try contradiction.
  2:{ destruct (validateCrc_run_events _ _ _ _ _ Hc) as [Hf _]. congruence. }
  destruct (validateCrc_run_events _ _ _ _ _ Hc) as [_ [crc ->]].
  assert (Hlaunch : is_launch launch = true /\ is_decompress launch = false /\
                    reads_medium launch = false).
  { destruct (CONFIG_SERVICE_BOOT_CUSTOM_FLOW cfg).
    - destruct Hla as [_ ->]. repeat split.
    - destruct Hla as (rc & _ & _ & ->). repeat split. }
  destruct Hlaunch as (Hl1 & Hl2 & Hl3).
  assert (Hprints : forall P : event -> bool,
            (forall l s a, P (Printf l s a) = false) -> existsb P (ev0 ++ []) = false).
  { intros P HP. rewrite app_nil_r. apply existsb_false. intros x Hx'.
    rewrite forallb_forall in Hev0. specialize (Hev0 x Hx').
    destruct x; try discriminate. apply HP. }
  split; [| split; [| split]].
  - right. apply in_or_app. right. simpl. tauto.
  - cbn [existsb is_launch orb]. rewrite existsb_app. apply orb_true_iff. right.
    cbn [app existsb is_launch orb]. now rewrite Hl1.
  - cbn [existsb is_decompress orb]. rewrite existsb_app, Hprints by reflexivity.
    cbn [app existsb is_decompress orb]. now rewrite Hl2.
  - cbn [existsb reads_medium orb]. rewrite existsb_app, Hprints by reflexivity.
    cbn [app existsb reads_medium orb]. now rewrite Hl3.
Qed.

(** X12. [HSS_BootInit] computes a CRC32 only over the image the
    acquisition stage ended with, and only when its pointer is not null and
    its magic is [mHSS_BOOT_MAGIC]: once over the size of the header, and once
    more, over the [bootImageLength] found in the header, only when the
    header check has failed. *)
Theorem crc32_only_on_plain_image (f : HSS_GetBootImageFnPtr_t) (w : World Ext)
    (a n c : Z) :
  In (Call_CRC32_calculate a n c) (events_of (HSS_BootInit cfg f w)) ->
  exists r d w1 pre,
    HSS_BootInit_acquire cfg f NULL false w = (r, a, d, w1, pre) /\
    a <> NULL /\
    magic_at cfg (mem w1) a = mHSS_BOOT_MAGIC cfg /\
    (n = sizeof_HSS_BootImage cfg \/
     (header_crc_matches cfg (mem w1) a = false /\
      n = load_u64 (mem w1) (a + offsetof_bootImageLength cfg))).
Proof.
  intros Hin.
  destruct (HSS_BootInit_cases f w)
    as [[Hb Hrun] | (Hb & r & p & d & w1 & pre & res & w3 & evv & Hacq & Hpre & Hx & Hrun)];
    rewrite Hrun in *; unfold events_of in *; cbn [snd] in *.
  { split_in Hin. discriminate. }
  assert (Hp : forall x, In x pre -> is_crc32 x = false).
  { intros x Hx'. apply Hpre in Hx'. now apply acquire_event_facts in Hx'. }
  inversion Hx as [Hnull | Hnn Hm | w2 evc u w2' res' w3' launch Hnn Hm Hc Hr Hla
                   | w2 evc len crc Hnn Hm Hc]; subst;
    try (destruct (validateCrc_run_events _ _ _ _ _ Hc) as [Hres [crc0 ->]]);
    split_in Hin; try discriminate;
    try (apply Hp in Hin; discriminate).
  - injection Hin as <- <- <-. do 4 eexists. split; [exact Hacq |]. auto.
  - exfalso. destruct (CONFIG_SERVICE_BOOT_CUSTOM_FLOW cfg).
    + destruct Hla as [_ ->]. discriminate.
    + destruct Hla as (rc & _ & _ & ->). discriminate.
  - injection Hin as <- <- <-. do 4 eexists. split; [exact Hacq |]. auto.
  - injection Hin as <- <- <-. do 4 eexists. split; [exact Hacq |].
    repeat split; try assumption. right. split; [now symmetry |].
    unfold load_u64. f_equal. apply load_bytes_ext.
    match goal with
    | Hc' : validateCrc_ cfg ?pp ?ww = (_, ?wx, _) |- _ =>
        replace wx with (world_of (validateCrc_ cfg pp ww)) by now rewrite Hc'
    end.
    apply validateCrc_world.
Qed.

(** X13. A rejected image: when the acquisition stage ends with a null
    pointer, or with a header whose magic is not [mHSS_BOOT_MAGIC] (a
    compressed image that was not decompressed, say), [HSS_BootInit] prints
    the one error message and returns false, also when the reader had
    returned true; the validation block calls nothing and leaves the world as
    the acquisition stage left it. *)
Theorem rejected_image (f : HSS_GetBootImageFnPtr_t) (w w1 : World Ext)
    (r d : bool) (p : Z) (pre : list event) :
  CONFIG_SERVICE_BOOT cfg = true ->
  HSS_BootInit_acquire cfg f NULL false w = (r, p, d, w1, pre) ->
  p = NULL \/ magic_at cfg (mem w1) p <> mHSS_BOOT_MAGIC cfg ->
  HSS_BootInit cfg f w =
    (false, w1,
     Printf LOG_NORMAL "Initializing Boot Image.." [] :: pre ++
     [Printf LOG_ERROR
        (if p =? NULL then "Boot Image NULL, ignoring"
         else "Boot Image magic invalid, ignoring") []]).
Proof.
  intros Hboot Hacq0 Hrej.
  destruct (HSS_BootInit_cases f w)
    as [[Hb Hrun] | (Hb & r' & p' & d' & w1' & pre' & res & w3 & evv & Hacq & Hpre & Hx & Hrun)];
    [congruence |].
  rewrite Hacq0 in Hacq. injection Hacq as <- <- <- <- <-.
  rewrite Hrun.
  inversion Hx as [Hnull | Hnn Hm | w2 evc u w2' res' w3' launch Hnn Hm Hc Hr Hla
                   | w2 evc len crc Hnn Hm Hc]; subst.
  - reflexivity.
  - apply Z.eqb_neq in Hnn. rewrite Hnn. reflexivity.
  - destruct Hrej; contradiction.
  - destruct Hrej; contradiction.
Qed.

(** X14. Each reader calls only the functions of its own medium: besides
    its prints, the SPI flash reader only selects the service mode and copies
    from the flash, the MMC reader only reads the card and (with GPT
    configured) calls the partition-table functions, the QSPI reader only
    reads the QSPI flash, and the payload reader calls nothing.  Unless it is
    the MMC reader with GPT configured, whose partition-table functions read
    the card on their own, a reader makes at most two block reads. *)
Theorem readers_keep_to_their_medium (f : HSS_GetBootImageFnPtr_t) (pp : Z)
    (w : World Ext) :
  forallb (reader_may_emit cfg f) (events_of (call_getBootImageFunction cfg f pp w)) = true
  /\ ((f = FromMMC -> CONFIG_SERVICE_BOOT_MMC_USE_GPT cfg = false) ->
      (List.length (filter is_block_read (events_of (call_getBootImageFunction cfg f pp w)))
       <= 2)%nat).
Proof.
  split.
  - destruct f; unfold_code;
      destruct (CONFIG_SERVICE_BOOT_MMC_USE_GPT cfg) eqn:Hg;
      destruct (CONFIG_SERVICE_QSPI_USE_XIP cfg) eqn:Hx;
      cbn [negb]; run;
      cbn [app forallb reader_may_emit andb];
      rewrite ?Hg, ?Hx; reflexivity.
  - intros Hgpt.
    destruct f; unfold_code;
      try (rewrite (Hgpt eq_refl));
      destruct (CONFIG_SERVICE_QSPI_USE_XIP cfg) eqn:Hx;
      cbn [negb]; run;
      cbn [app filter is_block_read List.length]; lia.
Qed.

End MoreFacts.

(** * Runs on the concrete board *)

Section Runs.

Import Sample.

Example crc32_check_value :
  crc32 (map byte.of_Z [49; 50; 51; 52; 53; 54; 55; 56; 57]) = 0xCBF43926.
Proof. vm_compute. reflexivity. Qed.

(** Scenario A on the SPI flash reader: a good plain image is copied,
    validated, registered and launched. *)
Example good_spi_boot :
  result_of (HSS_BootInit cfg FromSpiFlash w_good_spi) = true /\
  registered (ext (world_of (HSS_BootInit cfg FromSpiFlash w_good_spi))) = [DDR].
Proof. vm_compute. split; reflexivity. Qed.

(** A failed header read on a cold boot, MMC and SPI flash readers: the
    reader returns false without a pointer, and nothing is checked or
    registered. *)
Example header_read_fails_mmc :
  result_of (call_getBootImageFunction cfg FromMMC NULL w_header_read_fails)
    = (false, NULL) /\
  result_of (HSS_BootInit cfg FromMMC w_header_read_fails) = false /\
  existsb is_crc32 (events_of (HSS_BootInit cfg FromMMC w_header_read_fails)) = false /\
  existsb is_register (events_of (HSS_BootInit cfg FromMMC w_header_read_fails)) = false.
Proof. vm_compute. repeat split; reflexivity. Qed.

Example header_read_fails_spi :
  result_of (call_getBootImageFunction cfg FromSpiFlash NULL w_header_read_fails)
    = (false, NULL) /\
  result_of (HSS_BootInit cfg FromSpiFlash w_header_read_fails) = false /\
  existsb is_crc32 (events_of (HSS_BootInit cfg FromSpiFlash w_header_read_fails)) = false /\
  existsb is_register (events_of (HSS_BootInit cfg FromSpiFlash w_header_read_fails)) = false.
Proof. vm_compute. repeat split; reflexivity. Qed.

(** C2, at the failing input.  SPI flash reader; the header read works and
    finds a plain magic, the copy to DDR fails, and DDR still holds a good
    plain image.  The reader returns false, and yet [HSS_BootInit] goes on
    to compare the magic, to run [validateCrc_], to register the image and
    to launch it, and returns true. *)
Theorem failed_reader_not_skipped :
  result_of (call_getBootImageFunction cfg FromSpiFlash NULL w_copy_fails_stale_DDR)
    = (false, DDR) /\
  result_of (HSS_BootInit_acquire cfg FromSpiFlash NULL false w_copy_fails_stale_DDR)
    = (false, DDR, false) /\
  events_of (HSS_BootInit cfg FromSpiFlash w_copy_fails_stale_DDR) =
    [Printf LOG_NORMAL "Initializing Boot Image.." [];
     Printf LOG_NORMAL "Preparing to copy from SPI Flash +0x%lx to DDR ..." [Int 0x400];
     Printf LOG_NORMAL "Attempting to read image header (%d bytes) ..." [Int 64];
     Call_select_service_mode;
     Call_spi_copy scratch 0x400 64 0;
     Printf LOG_NORMAL "Copying %lu bytes to 0x%x" [Int 80; Ptr DDR];
     Call_spi_copy DDR 0x400 80 1;
     Printf LOG_ERROR "Failed to read 0x%lx bytes from SPI flash @0x%lx (error code %d)!"
       [Int 80; Int 0x400; Int 1];
     Call_CRC32_calculate DDR 64 0x5EF04A95;
     Printf LOG_NORMAL "%s boot image passed CRC" [Str EmptyString];
     Printf LOG_NORMAL fmt_set_name [Ptr (DDR + 20)];
     Call_Register_Boot_Image DDR;
     Printf LOG_NORMAL "Boot Image registered..." [];
     Call_Boot_RestartCore 5 0] /\
  result_of (HSS_BootInit cfg FromSpiFlash w_copy_fails_stale_DDR) = true /\
  registered (ext (world_of (HSS_BootInit cfg FromSpiFlash w_copy_fails_stale_DDR))) = [DDR].
Proof. vm_compute. repeat split; reflexivity. Qed.

(** C5, at the failing input.  QSPI reader without XIP; the header read
    fails, the scratch header still holds a good plain header, and the copy
    works.  The failure of the first read is dropped: the reader returns
    true, and [HSS_BootInit] runs the CRC check and registers the image. *)
Theorem qspi_header_read_failure_dropped :
  result_of (call_getBootImageFunction cfg FromQSPI NULL w_header_read_fails_stale_scratch)
    = (true, DDR) /\
  events_of (call_getBootImageFunction cfg FromQSPI NULL w_header_read_fails_stale_scratch) =
    [Printf LOG_NORMAL "Preparing to copy from QSPI to DDR ..." [];
     Printf LOG_NORMAL "Attempting to read image header (%d bytes) ..." [Int 64];
     Call_QSPI_ReadBlock scratch 0 64 false;
     Printf LOG_NORMAL "Copying %lu bytes to 0x%x" [Int 80; Ptr DDR];
     Call_QSPI_ReadBlock DDR 0 80 true] /\
  events_of (HSS_BootInit cfg FromQSPI w_header_read_fails_stale_scratch) =
    [Printf LOG_NORMAL "Initializing Boot Image.." [];
     Printf LOG_NORMAL "Preparing to copy from QSPI to DDR ..." [];
     Printf LOG_NORMAL "Attempting to read image header (%d bytes) ..." [Int 64];
     Call_QSPI_ReadBlock scratch 0 64 false;
     Printf LOG_NORMAL "Copying %lu bytes to 0x%x" [Int 80; Ptr DDR];
     Call_QSPI_ReadBlock DDR 0 80 true;
     Call_CRC32_calculate DDR 64 0x5EF04A95;
     Printf LOG_NORMAL "%s boot image passed CRC" [Str EmptyString];
     Printf LOG_NORMAL fmt_set_name [Ptr (DDR + 20)];
     Call_Register_Boot_Image DDR;
     Printf LOG_NORMAL "Boot Image registered..." [];
     Call_Boot_RestartCore 5 0] /\
  result_of (HSS_BootInit cfg FromQSPI w_header_read_fails_stale_scratch) = true.
Proof. vm_compute. repeat split; reflexivity. Qed.

(** A card without partition table and a good image at offset 0: the
    lookup fails and the boot goes through (scenario D). *)
Example mmc_without_gpt_boots :
  fst (result_of (getBootImageFromMMC_GPT_lookup 0 w_mmc_no_gpt)) = false /\
  result_of (call_getBootImageFunction cfg FromMMC NULL w_mmc_no_gpt) = (true, DDR) /\
  result_of (HSS_BootInit cfg FromMMC w_mmc_no_gpt) = true.
Proof. vm_compute. repeat split; reflexivity. Qed.

(** ** The general statements at concrete inputs *)

Ltac in_list := vm_compute; repeat (first [left; reflexivity | right]).

Lemma register_only_validated_witness :
  In (Call_Register_Boot_Image DDR) (events_of (HSS_BootInit cfg FromSpiFlash w_good_spi)) /\
  DDR <> NULL /\
  magic_at cfg
    (mem (world_of (HSS_BootInit_acquire cfg FromSpiFlash NULL false w_good_spi))) DDR
  = mHSS_BOOT_MAGIC cfg.
Proof.
  assert (Hin : In (Call_Register_Boot_Image DDR)
                  (events_of (HSS_BootInit cfg FromSpiFlash w_good_spi))) by in_list.
  split; [exact Hin |].
  destruct (register_only_validated cfg FromSpiFlash w_good_spi DDR Hin)
    as (r & d & w1 & pre & w2 & evc & before & after & Hacq & Hnn & Hm & _).
  split; [exact Hnn |]. rewrite Hacq. exact Hm.
Defined.

Lemma header_crc_only_gate_witness :
  (forall bs, List.length bs = Z.to_nat (sizeof_HSS_BootImage cfg) ->
              crc32_header_only bs = CRC32_calculate bs) /\
  result_of (HSS_BootInit (E := with_CRC32 board crc32_header_only) cfg FromPayload
               w_payload_corrupt)
  = result_of (HSS_BootInit cfg FromPayload w_payload_corrupt) /\
  exists len c,
    In (Call_CRC32_calculate (_payload_start cfg) len c)
       (events_of (HSS_BootInit cfg FromPayload w_payload_corrupt)) /\
    In (Printf LOG_NORMAL diag_crc_fmt [Int c])
       (events_of (HSS_BootInit cfg FromPayload w_payload_corrupt)).
Proof.
  assert (H : forall bs, List.length bs = Z.to_nat (sizeof_HSS_BootImage cfg) ->
                         crc32_header_only bs = CRC32_calculate bs).
  { intros bs Hl. unfold crc32_header_only.
    change (Z.to_nat (sizeof_HSS_BootImage cfg)) with 64%nat in Hl.
    rewrite Hl. reflexivity. }
  pose proof (header_crc_only_gate cfg FromPayload (_payload_start cfg) w_payload_corrupt
                crc32_header_only H) as T.
  destruct T as (_ & _ & _ & (Hsame & _) & Hfail).
  split; [exact H |]. split; [exact Hsame |].
  assert (Hres : result_of (HSS_BootInit_acquire cfg FromPayload NULL false w_payload_corrupt)
                 = (true, _payload_start cfg, false)) by (vm_compute; reflexivity).
  assert (Hacq : HSS_BootInit_acquire cfg FromPayload NULL false w_payload_corrupt =
                 (true, _payload_start cfg, false,
                  world_of (HSS_BootInit_acquire cfg FromPayload NULL false w_payload_corrupt),
                  events_of (HSS_BootInit_acquire cfg FromPayload NULL false w_payload_corrupt))).
  { revert Hres.
    destruct (HSS_BootInit_acquire cfg FromPayload NULL false w_payload_corrupt)
      as [[x w1] pre].
    unfold result_of, world_of, events_of. cbn [fst snd]. intros ->. reflexivity. }
  assert (Hnn : _payload_start cfg <> NULL) by (vm_compute; discriminate).
  assert (Hm : magic_at cfg
                 (mem (world_of (HSS_BootInit_acquire cfg FromPayload NULL false
                                   w_payload_corrupt))) (_payload_start cfg)
               = mHSS_BOOT_MAGIC cfg) by (vm_compute; reflexivity).
  assert (Hv : result_of (validateCrc_ cfg (_payload_start cfg)
                 (world_of (HSS_BootInit_acquire cfg FromPayload NULL false
                              w_payload_corrupt))) = false) by (vm_compute; reflexivity).
  specialize (Hfail _ _ _ _ _ eq_refl Hacq Hnn Hm Hv). cbv zeta in Hfail.
  do 2 eexists. rewrite Hfail. unfold events_of at 1 3. cbv beta iota delta [snd].
  split; right; apply in_or_app; right; apply in_or_app; right.
  - right. left. reflexivity.
  - right. right. left. reflexivity.
Defined.

Lemma mmc_lookup_failure_falls_through_witness :
  CONFIG_SERVICE_BOOT_MMC_USE_GPT cfg = true /\
  fst (result_of (getBootImageFromMMC_GPT_lookup 0 w_mmc_no_gpt)) = false /\
  snd (result_of (getBootImageFromMMC_GPT_lookup 0 w_mmc_no_gpt)) = 0.
Proof.
  assert (Hf : fst (result_of (getBootImageFromMMC_GPT_lookup 0 w_mmc_no_gpt)) = false)
    by (vm_compute; reflexivity).
  split; [reflexivity |]. split; [exact Hf |].
  exact (proj1 (proj2 (mmc_lookup_failure_falls_through cfg NULL w_mmc_no_gpt eq_refl)) Hf).
Defined.

Lemma decompress_gating_witness :
  mHSS_BOOT_MAGIC cfg <> mHSS_COMPRESSED_MAGIC cfg /\
  In (Call_Decompress (_payload_start cfg) DDR 0)
     (events_of (HSS_BootInit cfg FromPayload w_payload_compressed_fails)) /\
  result_of (HSS_BootInit cfg FromPayload w_payload_compressed_fails) = false.
Proof.
  assert (Hs : mHSS_BOOT_MAGIC cfg <> mHSS_COMPRESSED_MAGIC cfg)
    by (vm_compute; discriminate).
  assert (Hin : In (Call_Decompress (_payload_start cfg) DDR 0)
                  (events_of (HSS_BootInit cfg FromPayload w_payload_compressed_fails)))
    by in_list.
  split; [exact Hs |]. split; [exact Hin |].
  pose proof (decompress_gating cfg FromPayload w_payload_compressed_fails Hs) as H.
  cbv zeta in H. destruct H as (_ & _ & H).
  exact (proj1 (proj2 (H _ _ Hin))).
Defined.

Lemma decompress_error_branches_dead_witness :
  CONFIG_SERVICE_BOOT_DDR_TARGET_ADDR cfg <> NULL /\
  QSPI_BASE cfg <> NULL /\
  _payload_start cfg <> NULL /\
  fst (result_of (call_getBootImageFunction cfg FromPayload NULL w_payload_compressed)) = true /\
  snd (result_of (call_getBootImageFunction cfg FromPayload NULL w_payload_compressed)) <> NULL.
Proof.
  assert (H1 : CONFIG_SERVICE_BOOT_DDR_TARGET_ADDR cfg <> NULL) by (vm_compute; discriminate).
  assert (H2 : QSPI_BASE cfg <> NULL) by (vm_compute; discriminate).
  assert (H3 : _payload_start cfg <> NULL) by (vm_compute; discriminate).
  assert (Hr : fst (result_of (call_getBootImageFunction cfg FromPayload NULL
                                 w_payload_compressed)) = true)
    by (vm_compute; reflexivity).
  repeat (split; [assumption |]).
  exact (proj1 (decompress_error_branches_dead cfg FromPayload NULL w_payload_compressed
                  H1 H2 H3) Hr).
Defined.

End Runs.

(** * The further facts at concrete inputs *)

Section MoreRuns.

Import Sample.

Ltac in_events := vm_compute; repeat (first [left; reflexivity | right]).

(** With a partition table the image is read at the partition found. *)
Example mmc_with_gpt_boots :
  result_of (getBootImageFromMMC_GPT_lookup 0 w_mmc_gpt) = (true, 2) /\
  result_of (call_getBootImageFunction cfg FromMMC NULL w_mmc_gpt) = (true, DDR) /\
  result_of (HSS_BootInit cfg FromMMC w_mmc_gpt) = true.
Proof. vm_compute. repeat split; reflexivity. Qed.

Lemma block_copy_reads_one_offset_witness :
  CONFIG_SERVICE_QSPI_USE_XIP cfg = false /\
  In (Call_QSPI_ReadBlock DDR 0 80 true)
     (events_of (getBootImageFromQSPI_ cfg NULL w_mmc_no_gpt)) /\
  (DDR = bootImage cfg /\ 80 = sizeof_HSS_BootImage cfg \/
   DDR = CONFIG_SERVICE_BOOT_DDR_TARGET_ADDR cfg).
Proof.
  assert (Hin : In (Call_QSPI_ReadBlock DDR 0 80 true)
                  (events_of (getBootImageFromQSPI_ cfg NULL w_mmc_no_gpt))) by in_events.
  split; [reflexivity |]. split; [exact Hin |].
  exact (proj2 (proj2 (proj2 (proj2 (block_copy_reads_one_offset cfg 0 NULL w_mmc_no_gpt)))
                  eq_refl _ _ _ _ Hin)).
Defined.

Lemma block_copy_readers_result_witness :
  CONFIG_SERVICE_QSPI_USE_XIP cfg = false /\
  result_of (getBootImageFromQSPI_ cfg NULL w_header_read_fails_stale_scratch) = (true, DDR).
Proof.
  split; [reflexivity |].
  rewrite (proj2 (proj2 (block_copy_readers_result cfg 0 NULL
                           w_header_read_fails_stale_scratch)) eq_refl).
  vm_compute. reflexivity.
Defined.

Lemma readers_keep_to_their_medium_witness :
  (FromSpiFlash = FromMMC -> CONFIG_SERVICE_BOOT_MMC_USE_GPT cfg = false) /\
  (List.length (filter is_block_read
                  (events_of (call_getBootImageFunction cfg FromSpiFlash NULL w_good_spi)))
   <= 2)%nat.
Proof.
  assert (H : FromSpiFlash = FromMMC -> CONFIG_SERVICE_BOOT_MMC_USE_GPT cfg = false)
    by discriminate.
  split; [exact H |].
  exact (proj2 (readers_keep_to_their_medium cfg FromSpiFlash NULL w_good_spi) H).
Defined.


Lemma gpt_lookup_steps_witness :
  In (Call_GPT GPT_FindPartitionByTypeId_ true)
     (events_of (getBootImageFromMMC_GPT_lookup 0 w_mmc_gpt)) /\
  In (Call_GPT GPT_ValidatePartitionEntries_ true)
     (events_of (getBootImageFromMMC_GPT_lookup 0 w_mmc_gpt)).
Proof.
  assert (Hin : In (Call_GPT GPT_FindPartitionByTypeId_ true)
                  (events_of (getBootImageFromMMC_GPT_lookup 0 w_mmc_gpt))) by in_events.
  split; [exact Hin |].
  pose proof (gpt_lookup_steps 0 w_mmc_gpt) as H. cbv zeta in H.
  exact (proj1 (proj2 (proj2 H)) true Hin).
Defined.

Lemma launch_only_after_registration_witness :
  In (Call_Boot_RestartCore 5 0) (events_of (HSS_BootInit cfg FromSpiFlash w_good_spi)) /\
  is_launch (Call_Boot_RestartCore 5 0) = true /\
  exists q before,
    events_of (HSS_BootInit cfg FromSpiFlash w_good_spi) =
      before ++ [Call_Register_Boot_Image q;
                 Printf LOG_NORMAL "Boot Image registered..." [];
                 Call_Boot_RestartCore 5 0].
Proof.
  assert (Hin : In (Call_Boot_RestartCore 5 0)
                  (events_of (HSS_BootInit cfg FromSpiFlash w_good_spi))) by in_events.
  split; [exact Hin |]. split; [reflexivity |].
  destruct (launch_only_after_registration cfg FromSpiFlash w_good_spi _ Hin eq_refl)
    as (q & before & Heq & _).
  exists q, before. exact Heq.
Defined.

Lemma registered_pointer_is_known_witness :
  In (Call_Register_Boot_Image DDR) (events_of (HSS_BootInit cfg FromSpiFlash w_good_spi)) /\
  (DDR = CONFIG_SERVICE_BOOT_DDR_TARGET_ADDR cfg \/
   (FromSpiFlash = FromQSPI /\ CONFIG_SERVICE_QSPI_USE_XIP cfg = true /\ DDR = QSPI_BASE cfg) \/
   (FromSpiFlash = FromPayload /\ DDR = _payload_start cfg)).
Proof.
  assert (Hin : In (Call_Register_Boot_Image DDR)
                  (events_of (HSS_BootInit cfg FromSpiFlash w_good_spi))) by in_events.
  split; [exact Hin |].
  exact (registered_pointer_is_known cfg FromSpiFlash w_good_spi DDR Hin).
Defined.

Lemma decompress_nonzero_relocates_witness :
  In (Call_Decompress (_payload_start cfg) DDR 80)
     (events_of (HSS_BootInit cfg FromPayload w_payload_compressed)) /\
  80 <> 0 /\
  result_of (HSS_BootInit_acquire cfg FromPayload NULL false w_payload_compressed)
    = (true, CONFIG_SERVICE_BOOT_DDR_TARGET_ADDR cfg, true).
Proof.
  assert (Hin : In (Call_Decompress (_payload_start cfg) DDR 80)
                  (events_of (HSS_BootInit cfg FromPayload w_payload_compressed)))
    by in_events.
  assert (Hn : 80 <> 0) by discriminate.
  split; [exact Hin |]. split; [exact Hn |].
  exact (proj1 (decompress_nonzero_relocates cfg FromPayload w_payload_compressed
                  _ _ _ Hin Hn)).
Defined.

Lemma validated_image_is_registered_witness :
  In (Call_Register_Boot_Image DDR) (events_of (HSS_BootInit cfg FromSpiFlash w_good_spi)).
Proof.
  assert (Hres : result_of (HSS_BootInit_acquire cfg FromSpiFlash NULL false w_good_spi)
                 = (true, DDR, false)) by (vm_compute; reflexivity).
  assert (Hacq : HSS_BootInit_acquire cfg FromSpiFlash NULL false w_good_spi =
                 (true, DDR, false,
                  world_of (HSS_BootInit_acquire cfg FromSpiFlash NULL false w_good_spi),
                  events_of (HSS_BootInit_acquire cfg FromSpiFlash NULL false w_good_spi))).
  { revert Hres.
    destruct (HSS_BootInit_acquire cfg FromSpiFlash NULL false w_good_spi) as [[x w1] pre].
    unfold result_of, world_of, events_of. cbn [fst snd]. intros ->. reflexivity. }
  refine (proj1 (validated_image_is_registered cfg FromSpiFlash w_good_spi _ _ _ _ _
                   eq_refl Hacq _ _ _)).
  - vm_compute. discriminate.
  - vm_compute. reflexivity.
  - vm_compute. reflexivity.
Defined.

Lemma valid_payload_image_boots_witness :
  In (Call_Register_Boot_Image (_payload_start cfg))
     (events_of (HSS_BootInit cfg FromPayload w_payload_good)).
Proof.
  refine (proj1 (valid_payload_image_boots cfg w_payload_good eq_refl _ _ _ _)).
  - vm_compute. discriminate.
  - vm_compute. discriminate.
  - vm_compute. reflexivity.
  - vm_compute. reflexivity.
Defined.

Lemma crc32_only_on_plain_image_witness :
  In (Call_CRC32_calculate DDR 64 0x5EF04A95)
     (events_of (HSS_BootInit cfg FromSpiFlash w_good_spi)) /\
  DDR <> NULL.
Proof.
  assert (Hin : In (Call_CRC32_calculate DDR 64 0x5EF04A95)
                  (events_of (HSS_BootInit cfg FromSpiFlash w_good_spi))) by in_events.
  split; [exact Hin |].
  destruct (crc32_only_on_plain_image cfg FromSpiFlash w_good_spi _ _ _ Hin)
    as (r & d & w1 & pre & _ & Hnn & _).
  exact Hnn.
Defined.

Lemma rejected_image_witness :
  result_of (HSS_BootInit cfg FromPayload w_payload_compressed) = false.
Proof.
  assert (Hres : result_of (HSS_BootInit_acquire cfg FromPayload NULL false w_payload_compressed)
                 = (true, DDR, true)) by (vm_compute; reflexivity).
  assert (Hacq : HSS_BootInit_acquire cfg FromPayload NULL false w_payload_compressed =
                 (true, DDR, true,
                  world_of (HSS_BootInit_acquire cfg FromPayload NULL false w_payload_compressed),
                  events_of (HSS_BootInit_acquire cfg FromPayload NULL false w_payload_compressed))).
  { revert Hres.
    destruct (HSS_BootInit_acquire cfg FromPayload NULL false w_payload_compressed)
      as [[x w1] pre].
    unfold result_of, world_of, events_of. cbn [fst snd]. intros ->. reflexivity. }
  assert (Hrej : DDR = NULL \/
                 magic_at cfg
                   (mem (world_of (HSS_BootInit_acquire cfg FromPayload NULL false
                                     w_payload_compressed))) DDR
                 <> mHSS_BOOT_MAGIC cfg).
  { right. vm_compute. discriminate. }
  rewrite (rejected_image cfg FromPayload w_payload_compressed _ _ _ _ _ eq_refl Hacq Hrej).
  reflexivity.
Defined.

End MoreRuns.
